(** * ip2location: the ISO-3166 table generator [scripts/iso3166.py]

    A shallow embedding of [gen_cc] and of the part of the Python runtime it
    calls (string comparison, [sorted], [%]-formatting, [print]), followed by
    the properties of the generated table. *)

From Stdlib Require Import String Ascii DecimalString DecimalZ DecimalPos.
From Stdlib Require Import List NArith ZArith Arith Bool Lia.
From Stdlib Require Import Permutation Sorted.
From Stdlib Require Import Floats.SpecFloat.
Import ListNotations.

Set Implicit Arguments.
Set Warnings "-register-all".

(** ** Text *)

(** A Python [str] is a sequence of Unicode code points. *)
Definition pystr := list N.

(** A literal of the script, written with ASCII characters only. *)
Definition lit (s : string) : pystr :=
  map N_of_ascii (list_ascii_of_string s).

(** The escapes the script uses. *)
Definition NL : pystr := [10%N].
Definition DQ : pystr := [34%N].
Definition BS : pystr := [92%N].

(** [a < b] on [str]: lexicographic on code points. *)
Fixpoint str_ltb (a b : pystr) : bool :=
  match a, b with
  | _, [] => false
  | [], _ :: _ => true
  | x :: a', y :: b' =>
      if (x <? y)%N then true
      else if (y <? x)%N then false
      else str_ltb a' b'
  end.

Definition str_leb (a b : pystr) : bool := negb (str_ltb b a).

Fixpoint str_eqb (a b : pystr) : bool :=
  match a, b with
  | [], [] => true
  | x :: a', y :: b' => (x =? y)%N && str_eqb a' b'
  | _, _ => false
  end.

(** A surrogate code point, U+D800 to U+DFFF.  A [str] may hold one on its
    own ([json.loads] accepts the escape of one); UTF-8 has no encoding for
    it. *)
Definition surrogate (c : N) : bool := (55296 <=? c)%N && (c <=? 57343)%N.

(** The texts a UTF-8 stream with strict error handling accepts. *)
Definition encodable (s : pystr) : bool :=
  forallb (fun c => negb (surrogate c)) s.

(** UTF-8, the encoding under which a text is compared byte by byte. *)
Definition utf8_char (c : N) : list N :=
  if (c <? 128)%N then [c]
  else if (c <? 2048)%N then [192 + c / 64; 128 + c mod 64]%N
  else if (c <? 65536)%N then
    [224 + c / 4096; 128 + (c / 64) mod 64; 128 + c mod 64]%N
  else
    [240 + c / 262144; 128 + (c / 4096) mod 64;
     128 + (c / 64) mod 64; 128 + c mod 64]%N.

Definition utf8 (s : pystr) : list N := flat_map utf8_char s.

(** ** Exceptions and results *)

Inductive exn :=
| FileNotFoundError
| OSError
| JSONDecodeError
| KeyError (key : pystr)
| TypeError
| IndexError
| UnicodeEncodeError.

Inductive result (A : Type) :=
| Ok (a : A)
| Err (e : exn).
Arguments Ok {A} a.
Arguments Err {A} e.

Definition rbind {A B} (r : result A) (k : A -> result B) : result B :=
  match r with
  | Ok a => k a
  | Err e => Err e
  end.

Declare Scope res_scope.
Delimit Scope res_scope with res.
Notation "x <- c ;; k" := (rbind c (fun x => k))
  (at level 61, c at next level, right associativity) : res_scope.
Notation "' p <- c ;; k" := (rbind c (fun p => k))
  (at level 61, p pattern, c at next level, right associativity) : res_scope.

Fixpoint mapM {A B} (f : A -> result B) (l : list A) : result (list B) :=
  match l with
  | [] => Ok []
  | x :: l' => (y <- f x ;; ys <- mapM f l' ;; Ok (y :: ys))%res
  end.

Fixpoint foldM {S A} (f : S -> A -> result S) (l : list A) (s : S) : result S :=
  match l with
  | [] => Ok s
  | x :: l' => (s' <- f s x ;; foldM f l' s')%res
  end.

(** ** Values produced by [json.loads] *)

Inductive pyval :=
| PNone
| PBool (b : bool)
| PInt (z : Z)
| PFloat (f : spec_float)
| PStr (s : pystr)
| PList (l : list pyval)
| PDict (d : list (pystr * pyval)).

(** [d[k]] on the items of a dict, in insertion order. *)
Fixpoint lookup (k : pystr) (d : list (pystr * pyval)) : option pyval :=
  match d with
  | [] => None
  | (k', v) :: d' => if str_eqb k k' then Some v else lookup k d'
  end.

(** [elem[key]] with a [str] key: only a dict accepts it. *)
Definition getitem (elem : pyval) (key : pystr) : result pyval :=
  match elem with
  | PDict d =>
      match lookup key d with
      | Some v => Ok v
      | None => Err (KeyError key)
      end
  | _ => Err TypeError
  end.

(** Iteration, as [map] and [for] do it: the elements of a list, the keys of
    a dict, the characters of a string. *)
Definition py_iter (v : pyval) : result (list pyval) :=
  match v with
  | PList l => Ok l
  | PDict d => Ok (map (fun kv => PStr (fst kv)) d)
  | PStr s => Ok (map (fun c => PStr [c]) s)
  | _ => Err TypeError
  end.

(** [l[i]] on a list with an index in [0, len l). *)
Definition list_getitem {A} (l : list A) (i : nat) : result A :=
  match nth_error l i with
  | Some x => Ok x
  | None => Err IndexError
  end.

(** *** Numbers: [bool] is an [int]; an [int] and a [float] compare exactly *)

Inductive num :=
| NInt (z : Z)
| NFloat (f : spec_float).

Definition as_num (v : pyval) : option num :=
  match v with
  | PBool b => Some (NInt (if b then 1 else 0))
  | PInt z => Some (NInt z)
  | PFloat f => Some (NFloat f)
  | _ => None
  end.

Definition Z_SF_compare (x : Z) (f : spec_float) : option comparison :=
  match f with
  | S754_zero _ => Some (x ?= 0)%Z
  | S754_infinity neg => Some (if neg then Gt else Lt)
  | S754_nan => None
  | S754_finite neg m e =>
      let v := if neg then Z.neg m else Z.pos m in
      Some (if (0 <=? e)%Z then (x ?= v * 2 ^ e)%Z
            else (x * 2 ^ (- e) ?= v)%Z)
  end.

(** [None] when a NaN makes the two unordered. *)
Definition num_compare (a b : num) : option comparison :=
  match a, b with
  | NInt x, NInt y => Some (x ?= y)%Z
  | NFloat x, NFloat y => SFcompare x y
  | NInt x, NFloat y => Z_SF_compare x y
  | NFloat x, NInt y => option_map CompOpp (Z_SF_compare y x)
  end.

Definition num_eqb (a b : num) : bool :=
  match num_compare a b with Some Eq => true | _ => false end.

Definition num_ltb (a b : num) : bool :=
  match num_compare a b with Some Lt => true | _ => false end.

(** *** [==] and [<] *)

(** [json.loads] returns one and the same object for every [NaN] of a
    text. *)
Definition is_nan (v : pyval) : bool :=
  match v with PFloat S754_nan => true | _ => false end.

(** Equality as containers test their elements, [a is b or a == b], between
    two values of one result of [json.loads]: identity adds to [==] that NaN
    equals NaN (other identical objects are equal by value already).  The
    script never applies [==] itself; [<] on lists does, element by
    element. *)
Fixpoint py_eq (a b : pyval) {struct a} : bool :=
  match a, b with
  | PNone, PNone => true
  | PStr x, PStr y => str_eqb x y
  | PList xs, PList ys =>
      (fix go (xs ys : list pyval) : bool :=
         match xs, ys with
         | [], [] => true
         | x :: xs', y :: ys' => py_eq x y && go xs' ys'
         | _, _ => false
         end) xs ys
  | PDict d, PDict d' =>
      (length d =? length d') &&
      (fix go (d : list (pystr * pyval)) : bool :=
         match d with
         | [] => true
         | (k, v) :: r =>
             match lookup k d' with
             | Some v' => py_eq v v'
             | None => false
             end && go r
         end) d
  | _, _ =>
      (is_nan a && is_nan b) ||
      match as_num a, as_num b with
      | Some x, Some y => num_eqb x y
      | _, _ => false
      end
  end.

(** [a < b] raises [TypeError] unless both are strings, both numbers, or both
    lists; lists compare with [<] the first pair of elements that [py_eq]
    tells apart. *)
Fixpoint py_lt (a b : pyval) {struct a} : result bool :=
  match a, b with
  | PStr x, PStr y => Ok (str_ltb x y)
  | PList xs, PList ys =>
      (fix go (xs ys : list pyval) : result bool :=
         match xs, ys with
         | [], [] => Ok false
         | [], _ :: _ => Ok true
         | _ :: _, [] => Ok false
         | x :: xs', y :: ys' => if py_eq x y then go xs' ys' else py_lt x y
         end) xs ys
  | _, _ =>
      match as_num a, as_num b with
      | Some x, Some y => Ok (num_ltb x y)
      | _, _ => Err TypeError
      end
  end.

(** *** [sorted(l, key=...)]

    The builtin is a stable sort that calls only [<] on the keys and lets the
    first exception of a comparison escape.  It is modelled by the stable
    insertion of each element, left to right, behind the elements it is not
    smaller than.  The builtin chooses other pairs to compare, so the model
    stands for it where that choice cannot show: on keys that [<] orders
    totally, such as strings, where the result of a stable sort is unique
    ([stable_sort_unique]); on lists of fewer than two elements, where nothing
    is compared; on keys none of whose comparisons raises, as far as raising
    goes (the order may differ); and on lists of two or more with a key that
    [<] accepts on neither side, where either raises [TypeError].  The
    properties below stay within these cases. *)

Fixpoint insort {A} (key : A -> pyval) (x : A) (l : list A) : result (list A) :=
  match l with
  | [] => Ok [x]
  | y :: l' =>
      (b <- py_lt (key x) (key y) ;;
       if b then Ok (x :: y :: l')
       else (r <- insort key x l' ;; Ok (y :: r)))%res
  end.

Definition sorted {A} (l : list A) (key : A -> pyval) : result (list A) :=
  foldM (fun acc x => insort key x acc) l [].

(** *** [str(n)] of an [int], also what [%d] prints *)

Definition str_of_int (z : Z) : pystr :=
  lit (NilZero.string_of_int (Z.to_int z)).

(** ** The process: script location, files, standard output *)

Inductive file_state :=
| Missing
| Unreadable
| Text (contents : pystr).

Record world := World {
  script_dir : pystr;            (* os.path.dirname(os.path.realpath(__file__)) *)
  fs : pystr -> file_state;      (* the files, by path *)
  stdout : pystr                 (* what has been written to sys.stdout *)
}.

Definition M (A : Type) := world -> world * result A.

Definition ret {A} (a : A) : M A := fun w => (w, Ok a).

Definition bind {A B} (m : M A) (k : A -> M B) : M B :=
  fun w =>
    match m w with
    | (w', Ok a) => k a w'
    | (w', Err e) => (w', Err e)
    end.

Definition lift {A} (r : result A) : M A := fun w => (w, r).

Declare Scope io_scope.
Delimit Scope io_scope with io.
Notation "x <- c ;; k" := (bind c (fun x => k))
  (at level 61, c at next level, right associativity) : io_scope.

(** [os.path.join(a, b)] for a relative [b]. *)
Definition os_path_join (a b : pystr) : pystr :=
  match rev a with
  | [] => b
  | c :: _ => if (c =? 47)%N then a ++ b else a ++ lit "/" ++ b
  end.

Definition SCRIPT_DIR (w : world) : pystr := script_dir w.

Definition ISO3166_DATA (w : world) : pystr :=
  os_path_join (SCRIPT_DIR w) (lit "iso3166_all.json").

(** [open(path, "r").read()] *)
Definition open_read (path : world -> pystr) : M pystr :=
  fun w =>
    match fs w (path w) with
    | Missing => (w, Err FileNotFoundError)
    | Unreadable => (w, Err OSError)
    | Text t => (w, Ok t)
    end.

(** [print(s)] on a standard output that encodes to UTF-8 and is strict
    about errors: the text is encoded before any of it is written, so a text
    with a lone surrogate raises and leaves the stream as it was. *)
Definition print (s : pystr) : M unit :=
  fun w =>
    if encodable s
    then (World (script_dir w) (fs w) (stdout w ++ s ++ NL), Ok tt)
    else (w, Err UnicodeEncodeError).

(** ** The generator *)

Definition item := (pyval * pyval)%type.

Section Generator.

(** The runtime's JSON parser and its [repr] of floats, lists and dicts. *)
Variable json_loads : pystr -> result pyval.
Variable py_repr : pyval -> pystr.

(** [str(v)], what [%s] substitutes. *)
Definition py_str (v : pyval) : pystr :=
  match v with
  | PStr s => s
  | PNone => lit "None"
  | PBool true => lit "True"
  | PBool false => lit "False"
  | PInt z => str_of_int z
  | _ => py_repr v
  end.

(** The format of line 24 applied to [item]: an opening parenthesis, the
    first component between double quotes, a comma and a space, the second
    component between double quotes, a closing parenthesis, a comma and a
    space.  Both components go through [%s]. *)
Definition fmt_entry (it : item) : pystr :=
  lit "(" ++ DQ ++ py_str (fst it) ++ DQ ++ lit ", " ++
  DQ ++ py_str (snd it) ++ DQ ++ lit "), ".

(** The format of line 26 applied to [(n, body)]: a line break, the
    declaration with [n] under [%d] and [body] under [%s], a line break. *)
Definition fmt_code (n : nat) (body : pystr) : pystr :=
  NL ++ lit "pub static COUNTRY_CODES: [(&'static str, &'static str); " ++
  str_of_int (Z.of_nat n) ++ lit "] = [" ++ body ++ lit "];" ++ NL.

(** [lambda elem: (elem["alpha-2"], elem["name"])] *)
Definition project (elem : pyval) : result item :=
  (a <- getitem elem (lit "alpha-2") ;;
   n <- getitem elem (lit "name") ;;
   Ok (a, n))%res.

(** One turn of the [for i in range(len(items))] loop. *)
Definition loop_body (items : list item) (body : pystr) (i : nat)
  : result pystr :=
  (it <- list_getitem items i ;;
   let body := if i mod 1 =? 0 then body ++ NL ++ lit "    " else body in
   Ok (body ++ fmt_entry it))%res.

Definition gen_cc : M unit :=
  (text <- open_read ISO3166_DATA ;;
   data <- lift (json_loads text) ;;
   items <- lift (elems <- py_iter data ;; mapM project elems)%res ;;
   items <- lift (sorted items fst) ;;
   body <- lift (foldM (loop_body items) (seq 0 (length items)) []) ;;
   let body := body ++ NL in
   let code := fmt_code (length items) body in
   print code)%io.

Definition main : M unit := gen_cc.

(** The interpreter running the script: an exception that escapes [main]
    ends the process with status 1. *)
Definition script (w : world) : world * Z :=
  match main w with
  | (w', Ok _) => (w', 0%Z)
  | (w', Err _) => (w', 1%Z)
  end.

End Generator.

(** ** The stable sort by a string key

    What [sorted] computes when every key is a string, without the error
    cases. *)

Section SortModel.

Variable A : Type.
Variable key : A -> pystr.
Variable pkey : A -> pyval.

Fixpoint pinsert (x : A) (l : list A) : list A :=
  match l with
  | [] => [x]
  | y :: l' =>
      if str_ltb (key x) (key y) then x :: y :: l' else y :: pinsert x l'
  end.

Definition psort_from (acc l : list A) : list A :=
  fold_left (fun acc x => pinsert x acc) l acc.

Definition psort (l : list A) : list A := psort_from [] l.

Definition key_le (x y : A) : Prop := str_leb (key x) (key y) = true.

Definition has_key (c : pystr) (x : A) : bool := str_eqb (key x) c.

(** The key the script sorts by is the string [key x]. *)
Definition str_keyed (x : A) : Prop := pkey x = PStr (key x).

End SortModel.

(** ** Vocabulary of the properties *)

(** A record that has both keys. *)
Definition has_keys (r : pyval) : bool :=
  match r with
  | PDict d =>
      match lookup (lit "alpha-2") d, lookup (lit "name") d with
      | Some _, Some _ => true
      | _, _ => false
      end
  | _ => false
  end.

Definition field (k : pystr) (r : pyval) : pyval :=
  match r with
  | PDict d => match lookup k d with Some v => v | None => PNone end
  | _ => PNone
  end.

(** The pair a record with both keys is projected to. *)
Definition pair_of (r : pyval) : item :=
  (field (lit "alpha-2") r, field (lit "name") r).

Definition is_str (v : pyval) : bool :=
  match v with PStr _ => true | _ => false end.

(** A record of the data model: both keys, the code a string. *)
Definition valid_record (r : pyval) : bool :=
  has_keys r && is_str (field (lit "alpha-2") r).

(** The code of a pair whose first component is a string. *)
Definition code_of (it : item) : pystr :=
  match fst it with PStr s => s | _ => [] end.

(** The text written by one run: what standard output holds after it, past
    what it held before. *)
Definition written (w w' : world) : pystr :=
  skipn (List.length (stdout w)) (stdout w').

(** [<] is defined between every two of the keys. *)
Definition comparable (a b : pyval) : bool :=
  match py_lt a b with Ok _ => true | Err _ => false end.

Definition orderable (keys : list pyval) : bool :=
  forallb (fun a => forallb (comparable a) keys) keys.




(** A value that [<] accepts on neither side: null or an object. *)
Definition unorderable (v : pyval) : bool :=
  match v with PNone | PDict _ => true | _ => false end.

Section Rendering.

Variable json_loads : pystr -> result pyval.
Variable py_repr : pyval -> pystr.

(** One line of the body. *)
Definition line (it : item) : pystr := NL ++ lit "    " ++ fmt_entry py_repr it.

(** The value of [code] for the sorted list [items]. *)
Definition rendering (items : list item) : pystr :=
  fmt_code (List.length items) (flat_map line items ++ NL).

(** The string forms of both components of an item can be written to
    standard output. *)
Definition encodable_item (it : item) : bool :=
  encodable (py_str py_repr (fst it)) && encodable (py_str py_repr (snd it)).

(** The string forms of both fields of a record can be written to standard
    output. *)
Definition printable_record (r : pyval) : bool :=
  encodable (py_str py_repr (field (lit "alpha-2") r)) &&
  encodable (py_str py_repr (field (lit "name") r)).

(** The world after [print(text)]. *)
Definition emit (w : world) (text : pystr) : world :=
  World (script_dir w) (fs w) (stdout w ++ text ++ NL).

(** Lines 15 to 17: the sorted list of pairs read from the text of the file. *)
Definition sorted_items (text : pystr) : result (list item) :=
  (data <- json_loads text ;;
   elems <- py_iter data ;;
   items <- mapM project elems ;;
   sorted items fst)%res.

End Rendering.

(** ** Reading a decimal back *)

Definition unlit (s : pystr) : string :=
  string_of_list_ascii (map ascii_of_N s).

Definition int_of_str (s : pystr) : option Z :=
  option_map Z.of_int (NilZero.int_of_string (unlit s)).

(** ** Example inputs *)

Definition quoted (s : string) : pystr := DQ ++ lit s ++ DQ.

Definition ex_dir : pystr := lit "/srv/ip2location/scripts".

(** A file system holding, at most, the dataset next to the script. *)
Definition ex_world (dataset : file_state) : world :=
  World ex_dir
        (fun p => if str_eqb p (lit "/srv/ip2location/scripts/iso3166_all.json")
                  then dataset else Missing)
        [].

Definition ex_record (code name : string) : pyval :=
  PDict [(lit "alpha-2", PStr (lit code)); (lit "name", PStr (lit name))].

(** [[{"alpha-2":"US","name":"United States"}, {"alpha-2":"AD","name":"Andorra"}]] *)
Definition ex_text : pystr :=
  lit "[{" ++ quoted "alpha-2" ++ lit ":" ++ quoted "US" ++ lit "," ++
  quoted "name" ++ lit ":" ++ quoted "United States" ++ lit "}, {" ++
  quoted "alpha-2" ++ lit ":" ++ quoted "AD" ++ lit "," ++
  quoted "name" ++ lit ":" ++ quoted "Andorra" ++ lit "}]".

Definition ex_recs : list pyval :=
  [ex_record "US" "United States"; ex_record "AD" "Andorra"].

(** The same two records with a further key each. *)
Definition ex_text_wide : pystr :=
  lit "[{" ++ quoted "alpha-2" ++ lit ":" ++ quoted "US" ++ lit "," ++
  quoted "name" ++ lit ":" ++ quoted "United States" ++ lit "," ++
  quoted "region" ++ lit ":" ++ quoted "Americas" ++ lit "}, {" ++
  quoted "region" ++ lit ":" ++ quoted "Europe" ++ lit "," ++
  quoted "alpha-2" ++ lit ":" ++ quoted "AD" ++ lit "," ++
  quoted "name" ++ lit ":" ++ quoted "Andorra" ++ lit "}]".

Definition ex_recs_wide : list pyval :=
  [PDict [(lit "alpha-2", PStr (lit "US"));
          (lit "name", PStr (lit "United States"));
          (lit "region", PStr (lit "Americas"))];
   PDict [(lit "region", PStr (lit "Europe"));
          (lit "alpha-2", PStr (lit "AD"));
          (lit "name", PStr (lit "Andorra"))]].

(** One record, code [CI], whose name holds two double quotes: the word
    Coast stands between them, after the word Ivory and a space.  In the JSON
    text each of the two is written with a backslash before it. *)
Definition ex_text_quote : pystr :=
  lit "[{" ++ quoted "alpha-2" ++ lit ":" ++ quoted "CI" ++ lit "," ++
  quoted "name" ++ lit ":" ++
  DQ ++ lit "Ivory " ++ BS ++ DQ ++ lit "Coast" ++ BS ++ DQ ++ DQ ++ lit "}]".

Definition ex_name_quote : pystr := lit "Ivory " ++ DQ ++ lit "Coast" ++ DQ.

Definition ex_recs_quote : list pyval :=
  [PDict [(lit "alpha-2", PStr (lit "CI")); (lit "name", PStr ex_name_quote)]].

(** One record, code [A], whose name closes its own entry and opens another:
    the letter x, a double quote, a closing parenthesis, a comma, a space, an
    opening parenthesis, the letter B between double quotes, a comma, a
    space, a double quote, the letter y. *)
Definition ex_name_inject : pystr :=
  lit "x" ++ DQ ++ lit "), (" ++ DQ ++ lit "B" ++ DQ ++ lit ", " ++ DQ ++ lit "y".

Definition ex_text_inject : pystr :=
  lit "[{" ++ quoted "alpha-2" ++ lit ":" ++ quoted "A" ++ lit "," ++
  quoted "name" ++ lit ":" ++
  DQ ++ lit "x" ++ BS ++ DQ ++ lit "), (" ++ BS ++ DQ ++ lit "B" ++ BS ++ DQ ++
  lit ", " ++ BS ++ DQ ++ lit "y" ++ DQ ++ lit "}]".

Definition ex_recs_inject : list pyval :=
  [PDict [(lit "alpha-2", PStr (lit "A")); (lit "name", PStr ex_name_inject)]].

(** [[{"alpha-2":"US"}]]: a record without a name. *)
Definition ex_text_nokey : pystr :=
  lit "[{" ++ quoted "alpha-2" ++ lit ":" ++ quoted "US" ++ lit "}]".

Definition ex_recs_nokey : list pyval :=
  [PDict [(lit "alpha-2", PStr (lit "US"))]].

(** [[{"alpha-2":"US","name":"United States"}, {"alpha-2":1,"name":"One"}]] *)
Definition ex_text_number : pystr :=
  lit "[{" ++ quoted "alpha-2" ++ lit ":" ++ quoted "US" ++ lit "," ++
  quoted "name" ++ lit ":" ++ quoted "United States" ++ lit "}, {" ++
  quoted "alpha-2" ++ lit ":1," ++
  quoted "name" ++ lit ":" ++ quoted "One" ++ lit "}]".

Definition ex_recs_number : list pyval :=
  [ex_record "US" "United States";
   PDict [(lit "alpha-2", PInt 1); (lit "name", PStr (lit "One"))]].

(** [[{"alpha-2":null,"name":7}]] *)
Definition ex_text_single : pystr :=
  lit "[{" ++ quoted "alpha-2" ++ lit ":null," ++ quoted "name" ++ lit ":7}]".

Definition ex_recs_single : list pyval :=
  [PDict [(lit "alpha-2", PNone); (lit "name", PInt 7)]].

(** Two records: code [usa] with the name null, and the empty code with the
    name true. *)
Definition ex_text_loose : pystr :=
  lit "[{" ++ quoted "alpha-2" ++ lit ":" ++ quoted "usa" ++ lit "," ++
  quoted "name" ++ lit ":null}, {" ++
  quoted "alpha-2" ++ lit ":" ++ DQ ++ DQ ++ lit "," ++
  quoted "name" ++ lit ":true}]".

Definition ex_recs_loose : list pyval :=
  [PDict [(lit "alpha-2", PStr (lit "usa")); (lit "name", PNone)];
   PDict [(lit "alpha-2", PStr []); (lit "name", PBool true)]].

(** A parser that knows the example texts and refuses any other. *)
Definition ex_json (t : pystr) : result pyval :=
  match lookup t [(ex_text, PList ex_recs);
                  (ex_text_wide, PList ex_recs_wide);
                  (ex_text_quote, PList ex_recs_quote);
                  (ex_text_inject, PList ex_recs_inject);
                  (ex_text_nokey, PList ex_recs_nokey);
                  (ex_text_number, PList ex_recs_number);
                  (ex_text_single, PList ex_recs_single);
                  (ex_text_loose, PList ex_recs_loose);
                  (lit "[]", PList [])] with
  | Some data => Ok data
  | None => Err JSONDecodeError
  end.

Definition ex_repr : pyval -> pystr := fun _ => lit "?".

(** *** Further inputs *)

(** The two records of [ex_text] in the other order. *)
Definition ex_text_swapped : pystr :=
  lit "[{" ++ quoted "alpha-2" ++ lit ":" ++ quoted "AD" ++ lit "," ++
  quoted "name" ++ lit ":" ++ quoted "Andorra" ++ lit "}, {" ++
  quoted "alpha-2" ++ lit ":" ++ quoted "US" ++ lit "," ++
  quoted "name" ++ lit ":" ++ quoted "United States" ++ lit "}]".

Definition ex_recs_swapped : list pyval :=
  [ex_record "AD" "Andorra"; ex_record "US" "United States"].

(** A good record, an object with a name only, and the number 5. *)
Definition ex_text_second_bad : pystr :=
  lit "[{" ++ quoted "alpha-2" ++ lit ":" ++ quoted "US" ++ lit "," ++
  quoted "name" ++ lit ":" ++ quoted "United States" ++ lit "}, {" ++
  quoted "name" ++ lit ":" ++ quoted "Andorra" ++ lit "}, 5]".

Definition ex_bad_record : pyval :=
  PDict [(lit "name", PStr (lit "Andorra"))].

(** Two records with null as code. *)
Definition ex_text_nulls : pystr :=
  lit "[{" ++ quoted "alpha-2" ++ lit ":null," ++
  quoted "name" ++ lit ":" ++ quoted "a" ++ lit "}, {" ++
  quoted "alpha-2" ++ lit ":null," ++
  quoted "name" ++ lit ":" ++ quoted "b" ++ lit "}]".

Definition ex_recs_nulls : list pyval :=
  [PDict [(lit "alpha-2", PNone); (lit "name", PStr (lit "a"))];
   PDict [(lit "alpha-2", PNone); (lit "name", PStr (lit "b"))]].

(** A parser that knows these texts, the empty object and null. *)
Definition ex_json_more (t : pystr) : result pyval :=
  match lookup t [(ex_text, PList ex_recs);
                  (ex_text_swapped, PList ex_recs_swapped);
                  (ex_text_second_bad,
                   PList ([ex_record "US" "United States"] ++
                          ex_bad_record :: [PInt 5]));
                  (ex_text_nulls, PList ex_recs_nulls);
                  (lit "{}", PDict []);
                  (lit "null", PNone)] with
  | Some data => Ok data
  | None => Err JSONDecodeError
  end.

(** *** Inputs of the data model, and one that cannot be printed *)


(** One record, code [AA], whose name is the lone surrogate U+D800, written
    in the JSON text with the escape of four hexadecimal digits. *)
Definition ex_text_surrogate : pystr :=
  lit "[{" ++ quoted "alpha-2" ++ lit ":" ++ quoted "AA" ++ lit "," ++
  quoted "name" ++ lit ":" ++ DQ ++ BS ++ lit "ud800" ++ DQ ++ lit "}]".

Definition ex_recs_surrogate : list pyval :=
  [PDict [(lit "alpha-2", PStr (lit "AA")); (lit "name", PStr [55296%N])]].

(** A parser that knows this text and the one of [ex_recs_nulls]. *)
Definition ex_json_odd (t : pystr) : result pyval :=
  match lookup t [(ex_text_surrogate, PList ex_recs_surrogate);
                  (ex_text_nulls, PList ex_recs_nulls)] with
  | Some data => Ok data
  | None => Err JSONDecodeError
  end.

(** * Properties *)

Unset Implicit Arguments.

(** ** The order on strings *)

Lemma str_eqb_eq (a b : pystr) : str_eqb a b = true <-> a = b.
Proof.
  revert b; induction a as [|x a IH]; intros [|y b]; simpl;
    try (split; (discriminate || reflexivity)).
  rewrite andb_true_iff, N.eqb_eq, IH.
  split; [intros [-> ->]; reflexivity | intros H; inversion H; auto].
Qed.

Lemma str_eqb_refl (a : pystr) : str_eqb a a = true.
Proof. apply str_eqb_eq; reflexivity. Qed.

Lemma str_ltb_irrefl (a : pystr) : str_ltb a a = false.
Proof.
  induction a as [|x a IH]; simpl; [reflexivity|].
  rewrite N.ltb_irrefl; exact IH.
Qed.

Lemma str_ltb_cons (x y : N) (a b : pystr) :
  str_ltb (x :: a) (y :: b) = true <->
  (x < y)%N \/ (x = y /\ str_ltb a b = true).
Proof.
  simpl.
  destruct (N.ltb_spec x y) as [Hxy|Hxy]; [intuition|].
  destruct (N.ltb_spec y x) as [Hyx|Hyx].
  - split; [discriminate | intros [H|[H _]]; lia].
  - split; [intros H; right; split; [lia|exact H] | intros [H|[_ H]]; [lia|exact H]].
Qed.

Lemma str_ltb_trans (a b c : pystr) :
  str_ltb a b = true -> str_ltb b c = true -> str_ltb a c = true.
Proof.
  revert b c; induction a as [|x a IH]; intros [|y b] [|z c];
    try (simpl; congruence); try reflexivity.
  rewrite !str_ltb_cons.
  intros [H1|[H1 H1']] [H2|[H2 H2']]; try (left; lia).
  right; split; [lia | eauto].
Qed.

Lemma str_ltb_trichotomy (a b : pystr) :
  str_ltb a b = true \/ a = b \/ str_ltb b a = true.
Proof.
  revert b; induction a as [|x a IH]; intros [|y b]; simpl; auto.
  destruct (N.ltb_spec x y) as [Hxy|Hxy]; auto.
  destruct (N.ltb_spec y x) as [Hyx|Hyx]; auto.
  assert (x = y) by lia; subst y.
  destruct (IH b) as [H|[H|H]]; subst; auto.
Qed.

Lemma str_ltb_asym (a b : pystr) :
  str_ltb a b = true -> str_ltb b a = false.
Proof.
  intros H; destruct (str_ltb b a) eqn:E; [|reflexivity].
  pose proof (str_ltb_trans _ _ _ H E) as C.
  rewrite str_ltb_irrefl in C; discriminate.
Qed.

Lemma str_leb_refl (a : pystr) : str_leb a a = true.
Proof. unfold str_leb; rewrite str_ltb_irrefl; reflexivity. Qed.

Lemma str_leb_trans (a b c : pystr) :
  str_leb a b = true -> str_leb b c = true -> str_leb a c = true.
Proof.
  unfold str_leb; rewrite !negb_true_iff; intros Hba Hcb.
  destruct (str_ltb c a) eqn:Hca; [|reflexivity].
  destruct (str_ltb_trichotomy c b) as [H|[H|H]].
  - congruence.
  - subst; congruence.
  - rewrite (str_ltb_trans _ _ _ H Hca) in Hba; discriminate.
Qed.

Lemma str_leb_antisym (a b : pystr) :
  str_leb a b = true -> str_leb b a = true -> a = b.
Proof.
  unfold str_leb; rewrite !negb_true_iff; intros Hba Hab.
  destruct (str_ltb_trichotomy a b) as [H|[H|H]]; congruence.
Qed.

Lemma str_ltb_leb (a b : pystr) : str_ltb a b = true -> str_leb a b = true.
Proof. intros H; unfold str_leb; rewrite (str_ltb_asym _ _ H); reflexivity. Qed.

(** ** Byte order of UTF-8 is code point order *)

Lemma utf8_digits (c : N) :
  (c = 64 * (c / 64) + c mod 64 /\ c mod 64 < 64 /\
   c / 64 = 64 * (c / 4096) + (c / 64) mod 64 /\ (c / 64) mod 64 < 64 /\
   c / 4096 = 64 * (c / 262144) + (c / 4096) mod 64 /\ (c / 4096) mod 64 < 64)%N.
Proof.
  assert (H1 : (c / 4096 = c / 64 / 64)%N)
    by (rewrite N.Div0.div_div; reflexivity).
  assert (H2 : (c / 262144 = c / 4096 / 64)%N)
    by (rewrite N.Div0.div_div; reflexivity).
  rewrite H2, H1.
  repeat split; try (apply N.div_mod'); try (apply N.mod_lt; lia).
Qed.

Ltac name_digits c m2 m1 m0 q3 q2 q1 :=
  set (m2 := ((c / 4096) mod 64)%N) in *; set (m1 := ((c / 64) mod 64)%N) in *;
  set (m0 := (c mod 64)%N) in *; set (q3 := (c / 262144)%N) in *;
  set (q2 := (c / 4096)%N) in *; set (q1 := (c / 64)%N) in *;
  clearbody m2 m1 m0 q3 q2 q1.

Ltac split_ranges c :=
  destruct (N.ltb_spec c 128);
  [|destruct (N.ltb_spec c 2048); [|destruct (N.ltb_spec c 65536)]].

Lemma utf8_char_bytes (c : N) :
  (c < 1114112)%N -> Forall (fun b => (b < 256)%N) (utf8_char c).
Proof.
  intros Hc; pose proof (utf8_digits c) as D; unfold utf8_char.
  name_digits c m2 m1 m0 q3 q2 q1.
  split_ranges c; repeat constructor; lia.
Qed.

Lemma utf8_char_order (c1 c2 : N) (r1 r2 : list N) :
  str_ltb (utf8_char c1 ++ r1) (utf8_char c2 ++ r2) =
  if (c1 <? c2)%N then true
  else if (c2 <? c1)%N then false
  else str_ltb r1 r2.
Proof.
  pose proof (utf8_digits c1) as D1.
  pose proof (utf8_digits c2) as D2.
  unfold utf8_char.
  name_digits c1 m2 m1 m0 q3 q2 q1.
  name_digits c2 n2 n1 n0 p3 p2 p1.
  split_ranges c1; split_ranges c2; cbn [app str_ltb];
    repeat match goal with
           | |- context [N.ltb ?a ?b] => destruct (N.ltb_spec a b)
           end;
    try reflexivity; exfalso; lia.
Qed.

(** Comparing two strings code point by code point gives the same answer as
    comparing their UTF-8 encodings byte by byte. *)
Lemma utf8_order (a b : pystr) : str_ltb (utf8 a) (utf8 b) = str_ltb a b.
Proof.
  revert b; induction a as [|x a IH]; intros [|y b].
  - reflexivity.
  - simpl; unfold utf8_char.
    repeat match goal with
           | |- context [N.ltb ?a ?b] => destruct (N.ltb a b)
           end; reflexivity.
  - simpl; destruct (utf8_char x ++ utf8 a); reflexivity.
  - change (utf8 (x :: a)) with (utf8_char x ++ utf8 a).
    change (utf8 (y :: b)) with (utf8_char y ++ utf8 b).
    rewrite utf8_char_order, IH; reflexivity.
Qed.

Lemma utf8_leb (a b : pystr) : str_leb (utf8 a) (utf8 b) = str_leb a b.
Proof. unfold str_leb; rewrite utf8_order; reflexivity. Qed.

(** ** Texts that standard output accepts *)

Lemma encodable_app (a b : pystr) :
  encodable (a ++ b) = encodable a && encodable b.
Proof. apply forallb_app. Qed.

(** A literal of the script is ASCII. *)
Lemma encodable_lit (s : string) : encodable (lit s) = true.
Proof.
  unfold encodable, lit; rewrite forallb_forall; intros c Hc.
  apply in_map_iff in Hc; destruct Hc as (a & <- & _).
  pose proof (N_ascii_bounded a) as Hb; unfold surrogate.
  destruct (N.leb_spec 55296 (N_of_ascii a)); [lia | reflexivity].
Qed.

Lemma encodable_flat_map {A : Type} (f : A -> pystr) (l : list A) :
  encodable (flat_map f l) = forallb (fun x => encodable (f x)) l.
Proof.
  induction l as [|x l IH]; [reflexivity|].
  cbn [flat_map forallb]; rewrite encodable_app, IH; reflexivity.
Qed.

Lemma forallb_eq {A : Type} (f g : A -> bool) (l : list A) :
  (forall x, f x = g x) -> forallb f l = forallb g l.
Proof.
  intros H; induction l as [|x l IH]; [reflexivity|].
  cbn [forallb]; rewrite H, IH; reflexivity.
Qed.

Lemma forallb_perm {A : Type} (f : A -> bool) (l l' : list A) :
  Permutation l l' -> forallb f l = forallb f l'.
Proof.
  induction 1 as [|x l l' _ IH|x y l|l l' l'' _ IH1 _ IH2]; cbn [forallb].
  - reflexivity.
  - rewrite IH; reflexivity.
  - destruct (f x), (f y); reflexivity.
  - congruence.
Qed.

Lemma flat_map_map {A B C : Type} (g : A -> B) (f : B -> list C) (l : list A) :
  flat_map f (map g l) = flat_map (fun x => f (g x)) l.
Proof.
  induction l as [|x l IH]; [reflexivity|]; cbn; rewrite IH; reflexivity.
Qed.

Lemma StronglySorted_weaken {A : Type} (R S : A -> A -> Prop) (l : list A) :
  (forall a b, R a b -> S a b) -> StronglySorted R l -> StronglySorted S l.
Proof.
  intros HRS; induction 1 as [|x l _ IH Hx]; constructor; [exact IH|].
  eapply Forall_impl; [|exact Hx]; intros b; apply HRS.
Qed.

(** ** Stable insertion sort on string keys *)

Section StableSort.

Variable A : Type.
Variable key : A -> pystr.

Abbreviation pinsert := (pinsert key).
Abbreviation psort_from := (psort_from key).
Abbreviation psort := (psort key).
Abbreviation key_le := (key_le key).
Abbreviation has_key := (has_key key).

Lemma pinsert_perm (x : A) (l : list A) : Permutation (pinsert x l) (l ++ [x]).
Proof.
  induction l as [|y l IH]; simpl; [reflexivity|].
  destruct (str_ltb (key x) (key y)).
  - change (x :: y :: l) with ([x] ++ (y :: l)); apply Permutation_app_comm.
  - constructor; exact IH.
Qed.

Lemma pinsert_sorted (x : A) (l : list A) :
  StronglySorted key_le l -> StronglySorted key_le (pinsert x l).
Proof.
  induction 1 as [|y l Hs IH Hy]; simpl; [repeat constructor|].
  destruct (str_ltb (key x) (key y)) eqn:E.
  - constructor; [constructor; assumption|].
    assert (Hxy : key_le x y) by (apply str_ltb_leb; exact E).
    constructor; [exact Hxy|].
    eapply Forall_impl; [|exact Hy]; intros z Hz.
    unfold key_le in *; eapply str_leb_trans; eassumption.
  - constructor; [exact IH|].
    eapply Permutation_Forall; [symmetry; apply pinsert_perm|].
    apply Forall_app; split; [exact Hy|].
    constructor; [|constructor].
    unfold key_le, str_leb; rewrite E; reflexivity.
Qed.

Lemma filter_above (c : pystr) (x : A) (l : list A) :
  str_ltb c (key x) = true -> Forall (key_le x) l ->
  filter (has_key c) l = [].
Proof.
  intros Hc; induction 1 as [|z l Hz _ IH]; simpl; [reflexivity|].
  rewrite IH; unfold has_key.
  destruct (str_eqb (key z) c) eqn:E; [|reflexivity].
  apply str_eqb_eq in E; unfold key_le, str_leb in Hz.
  rewrite E, Hc in Hz; discriminate.
Qed.

(** An element is inserted behind those that carry its key. *)
Lemma pinsert_filter (c : pystr) (x : A) (l : list A) :
  StronglySorted key_le l ->
  filter (has_key c) (pinsert x l) = filter (has_key c) l ++ filter (has_key c) [x].
Proof.
  induction 1 as [|y l Hs IH Hy]; [reflexivity|].
  cbn [pinsert]; destruct (str_ltb (key x) (key y)) eqn:E.
  - change (x :: y :: l) with ([x] ++ y :: l); rewrite filter_app.
    remember (filter (has_key c) (y :: l)) as F eqn:HF.
    cbn [filter app]; destruct (has_key c x) eqn:Hx;
      [|rewrite app_nil_r; reflexivity].
    apply str_eqb_eq in Hx; subst c.
    assert (H0 : F = []).
    { subst F; apply filter_above with (x := y); [exact E|].
      constructor; [apply str_leb_refl | exact Hy]. }
    rewrite H0; reflexivity.
  - cbn [filter]; rewrite IH; destruct (has_key c y); reflexivity.
Qed.

Lemma psort_from_spec (l acc : list A) :
  StronglySorted key_le acc ->
  StronglySorted key_le (psort_from acc l) /\
  Permutation (psort_from acc l) (acc ++ l) /\
  forall c, filter (has_key c) (psort_from acc l) =
            filter (has_key c) acc ++ filter (has_key c) l.
Proof.
  revert acc; induction l as [|x l IH]; intros acc Hacc; cbn [psort_from fold_left].
  - rewrite app_nil_r; repeat split; auto; intros; rewrite app_nil_r; reflexivity.
  - destruct (IH (pinsert x acc) (pinsert_sorted x acc Hacc)) as (Hs & Hp & Hf).
    split; [exact Hs|]; split.
    + rewrite Hp, (pinsert_perm x acc), <- app_assoc; reflexivity.
    + intros c; unfold psort_from in Hf; rewrite Hf, pinsert_filter by exact Hacc.
      rewrite <- app_assoc, <- filter_app; reflexivity.
Qed.

Lemma psort_sorted (l : list A) : StronglySorted key_le (psort l).
Proof. apply (psort_from_spec l []); constructor. Qed.

Lemma psort_perm (l : list A) : Permutation (psort l) l.
Proof. apply (psort_from_spec l []); constructor. Qed.

Lemma psort_stable (l : list A) (c : pystr) :
  filter (has_key c) (psort l) = filter (has_key c) l.
Proof.
  destruct (psort_from_spec l []) as (_ & _ & H); [constructor|].
  apply H.
Qed.

Lemma psort_length (l : list A) : List.length (psort l) = List.length l.
Proof. apply Permutation_length, psort_perm. Qed.

(** Two lists sorted by key that agree, key by key, on the elements and
    their order are the same list. *)
Lemma sorted_filters_eq (r1 r2 : list A) :
  StronglySorted key_le r1 -> StronglySorted key_le r2 ->
  (forall c, filter (has_key c) r1 = filter (has_key c) r2) ->
  r1 = r2.
Proof.
  intros H1; revert r2; induction H1 as [|x r1 Hs1 IH Hx]; intros r2 H2 Hf.
  - destruct r2 as [|y r2]; [reflexivity|].
    specialize (Hf (key y)); cbn [filter] in Hf.
    unfold has_key in Hf; rewrite str_eqb_refl in Hf; discriminate.
  - destruct H2 as [|y r2 Hs2 Hy].
    + specialize (Hf (key x)); cbn [filter] in Hf.
      unfold has_key in Hf; rewrite str_eqb_refl in Hf; discriminate.
    + assert (Hin : forall (u v : list A) z,
                 (forall c, filter (has_key c) u = filter (has_key c) v) ->
                 In z u -> In z v).
      { intros u v z Huv Hz.
        assert (Hz' : In z (filter (has_key (key z)) u))
          by (apply filter_In; split; [exact Hz | apply str_eqb_refl]).
        rewrite Huv in Hz'; apply filter_In in Hz'; tauto. }
      assert (Hxy : key_le y x).
      { assert (Hi : In x (y :: r2))
          by (apply (Hin _ _ _ Hf); left; reflexivity).
        destruct Hi as [->|Hi]; [apply str_leb_refl|].
        rewrite Forall_forall in Hy; auto. }
      assert (Hyx : key_le x y).
      { assert (Hi : In y (x :: r1)).
        { apply (Hin (y :: r2) (x :: r1)); [intros c; symmetry; apply Hf|].
          left; reflexivity. }
        destruct Hi as [->|Hi]; [apply str_leb_refl|].
        rewrite Forall_forall in Hx; auto. }
      assert (Hk : key x = key y) by (apply str_leb_antisym; assumption).
      assert (Hxy' : x = y).
      { specialize (Hf (key x)); cbn [filter] in Hf; unfold has_key in Hf.
        rewrite <- Hk, str_eqb_refl in Hf; congruence. }
      subst y; f_equal; apply IH; [exact Hs2|].
      intros c; specialize (Hf c); cbn [filter] in Hf.
      destruct (has_key c x); congruence.
Qed.

(** Whatever pairs a stable sort compares, its result is this one. *)
Lemma stable_sort_unique (l r : list A) :
  StronglySorted key_le r ->
  (forall c, filter (has_key c) r = filter (has_key c) l) ->
  r = psort l.
Proof.
  intros Hs Hf; apply sorted_filters_eq; [exact Hs | apply psort_sorted |].
  intros c; rewrite psort_stable; apply Hf.
Qed.

(** *** [sorted] on string keys is [psort] *)

Variable pkey : A -> pyval.

Abbreviation str_keyed := (str_keyed key pkey).

Lemma insort_pure (x : A) (l : list A) :
  str_keyed x -> Forall str_keyed l -> insort pkey x l = Ok (pinsert x l).
Proof.
  intros Hx; induction 1 as [|y l Hy _ IH]; [reflexivity|].
  cbn [insort pinsert]; rewrite Hx, Hy; cbn [py_lt rbind].
  destruct (str_ltb (key x) (key y)); [reflexivity|].
  rewrite IH; reflexivity.
Qed.

Lemma pinsert_keyed (x : A) (l : list A) :
  str_keyed x -> Forall str_keyed l -> Forall str_keyed (pinsert x l).
Proof.
  intros Hx Hl; eapply Permutation_Forall; [symmetry; apply pinsert_perm|].
  apply Forall_app; auto.
Qed.

Lemma sorted_pure (l : list A) :
  Forall str_keyed l -> sorted l pkey = Ok (psort l).
Proof.
  unfold sorted, psort; generalize (@nil A) (Forall_nil str_keyed).
  induction l as [|x l IH]; intros acc Hacc Hl; [reflexivity|].
  inversion Hl as [|? ? Hx Hl']; subst.
  cbn [foldM psort_from fold_left]; rewrite insort_pure by assumption.
  cbn [rbind]; apply IH; [apply pinsert_keyed; assumption | exact Hl'].
Qed.

(** *** [sorted] on keys that [<] can compare *)

Lemma insort_total (x : A) (l : list A) :
  Forall (fun y => comparable (pkey x) (pkey y) = true) l ->
  exists r, insort pkey x l = Ok r /\ Permutation r (l ++ [x]).
Proof.
  induction 1 as [|y l Hy _ IH]; [exists [x]; split; reflexivity|].
  cbn [insort]; unfold comparable in Hy.
  destruct (py_lt (pkey x) (pkey y)) as [b|e]; [|discriminate].
  cbn [rbind]; destruct b.
  - exists (x :: y :: l); split; [reflexivity|].
    change (x :: y :: l) with ([x] ++ (y :: l)); apply Permutation_app_comm.
  - destruct IH as (r & Hr & Hp); rewrite Hr; cbn [rbind].
    exists (y :: r); split; [reflexivity|].
    cbn [app]; constructor; exact Hp.
Qed.

Lemma foldM_insort_total (l acc : list A) :
  (forall x y, In x l -> In y (acc ++ l) ->
               comparable (pkey x) (pkey y) = true) ->
  exists r, foldM (fun acc x => insort pkey x acc) l acc = Ok r /\
            Permutation r (acc ++ l).
Proof.
  revert acc; induction l as [|x l IH]; intros acc H.
  - exists acc; rewrite app_nil_r; split; reflexivity.
  - destruct (insort_total x acc) as (acc' & Ha & Hp).
    { rewrite Forall_forall; intros y Hy; apply H; [left; reflexivity|].
      apply in_or_app; left; exact Hy. }
    cbn [foldM]; rewrite Ha; cbn [rbind].
    destruct (IH acc') as (r & Hr & Hpr).
    { intros u v Hu Hv; apply H; [right; exact Hu|].
      apply in_app_or in Hv; destruct Hv as [Hv|Hv].
      - apply (Permutation_in _ Hp) in Hv.
        apply in_app_or in Hv; destruct Hv as [Hv|[<-|[]]];
          apply in_or_app; [left; exact Hv | right; left; reflexivity].
      - apply in_or_app; right; right; exact Hv. }
    exists r; split; [exact Hr|].
    rewrite Hpr, Hp, <- app_assoc; reflexivity.
Qed.

Lemma sorted_total (l : list A) :
  orderable (map pkey l) = true ->
  exists r, sorted l pkey = Ok r /\ Permutation r l.
Proof.
  intros H; apply (foldM_insort_total l []).
  intros x y Hx Hy; unfold orderable in H.
  rewrite forallb_forall in H.
  specialize (H (pkey x) (in_map pkey _ _ Hx)).
  rewrite forallb_forall in H; apply H, in_map, Hy.
Qed.

Lemma str_keyed_orderable (l : list A) :
  Forall str_keyed l -> orderable (map pkey l) = true.
Proof.
  intros H; unfold orderable; rewrite forallb_forall; intros a Ha.
  rewrite forallb_forall; intros b Hb.
  apply in_map_iff in Ha; destruct Ha as (x & <- & Hx).
  apply in_map_iff in Hb; destruct Hb as (y & <- & Hy).
  rewrite Forall_forall in H; unfold comparable.
  rewrite (H x Hx), (H y Hy); reflexivity.
Qed.

End StableSort.

(** ** More on comparisons and [sorted] *)

(** [<] raises nothing but [TypeError]. *)
Lemma py_lt_raises_TypeError :
  forall (a b : pyval) (e : exn), py_lt a b = Err e -> e = TypeError.
Proof.
  fix rec 1; intros a b e.
  destruct a as [| | | | |xs|d], b as [| | | | |ys|d']; cbn [py_lt as_num];
    try (intros H; inversion H; reflexivity).
  revert ys; induction xs as [|x xs IH]; intros [|y ys]; try discriminate.
  destruct (py_eq x y); [apply IH | apply rec].
Qed.

Lemma py_lt_unorderable_l (a b : pyval) :
  unorderable a = true -> py_lt a b = Err TypeError.
Proof. destruct a, b; try discriminate; reflexivity. Qed.

Lemma py_lt_unorderable_r (a b : pyval) :
  unorderable b = true -> py_lt a b = Err TypeError.
Proof.
  destruct b; try discriminate; destruct a as [| [|] | | | | |]; reflexivity.
Qed.

Section SortErrors.

Variable A : Type.
Variable pkey : A -> pyval.

Lemma insort_raises_TypeError (x : A) (l : list A) (e : exn) :
  insort pkey x l = Err e -> e = TypeError.
Proof.
  induction l as [|y l IH]; cbn [insort]; [discriminate|].
  destruct (py_lt (pkey x) (pkey y)) as [b|e'] eqn:E; cbn [rbind].
  - destruct b; [discriminate|].
    destruct (insort pkey x l); cbn [rbind]; [discriminate|].
    intros H; injection H as <-; apply IH; reflexivity.
  - intros H; injection H as <-; apply (py_lt_raises_TypeError _ _ _ E).
Qed.

Lemma insort_ok_perm (x : A) (l r : list A) :
  insort pkey x l = Ok r -> Permutation r (l ++ [x]).
Proof.
  revert r; induction l as [|y l IH]; intros r; cbn [insort].
  - intros H; injection H as <-; reflexivity.
  - destruct (py_lt (pkey x) (pkey y)) as [b|e']; cbn [rbind]; [|discriminate].
    destruct b.
    + intros H; injection H as <-.
      change (x :: y :: l) with ([x] ++ (y :: l)); apply Permutation_app_comm.
    + destruct (insort pkey x l) as [r'|e']; cbn [rbind]; [|discriminate].
      intros H; injection H as <-; cbn [app]; constructor; apply IH; reflexivity.
Qed.

Lemma foldM_insort_ok_perm (l acc r : list A) :
  foldM (fun acc x => insort pkey x acc) l acc = Ok r ->
  Permutation r (acc ++ l).
Proof.
  revert acc; induction l as [|x l IH]; intros acc; cbn [foldM].
  - intros H; injection H as <-; rewrite app_nil_r; reflexivity.
  - destruct (insort pkey x acc) as [acc'|e] eqn:E; cbn [rbind]; [|discriminate].
    intros H; rewrite (IH _ H), (insort_ok_perm _ _ _ E), <- app_assoc.
    reflexivity.
Qed.

(** What [sorted] returns is a rearrangement of what it was given. *)
Lemma sorted_ok_perm (l r : list A) :
  sorted l pkey = Ok r -> Permutation r l.
Proof. exact (foldM_insort_ok_perm l [] r). Qed.

Lemma foldM_insort_raises_TypeError (l acc : list A) (e : exn) :
  foldM (fun acc x => insort pkey x acc) l acc = Err e -> e = TypeError.
Proof.
  revert acc; induction l as [|x l IH]; intros acc; cbn [foldM]; [discriminate|].
  destruct (insort pkey x acc) as [acc'|e'] eqn:E; cbn [rbind].
  - apply IH.
  - intros H; injection H as <-; apply (insort_raises_TypeError _ _ _ E).
Qed.

Lemma foldM_insort_unorderable (l acc : list A) :
  acc <> [] ->
  Exists (fun x => unorderable (pkey x) = true) l ->
  exists e, foldM (fun acc x => insort pkey x acc) l acc = Err e.
Proof.
  revert acc; induction l as [|x l IH]; intros acc Hacc Hex;
    [inversion Hex|].
  cbn [foldM].
  destruct (unorderable (pkey x)) eqn:Hx.
  - destruct acc as [|y acc]; [congruence|].
    cbn [insort]; rewrite (py_lt_unorderable_l _ (pkey y) Hx).
    eexists; reflexivity.
  - inversion Hex as [? ? Hbad|? ? Hrest]; subst; [congruence|].
    destruct (insort pkey x acc) as [acc'|e] eqn:E; cbn [rbind];
      [|eexists; reflexivity].
    apply IH; [|exact Hrest].
    intros ->; apply insort_ok_perm, Permutation_nil in E.
    destruct acc; discriminate.
Qed.

Lemma sorted_unorderable (l : list A) :
  2 <= List.length l ->
  Exists (fun x => unorderable (pkey x) = true) l ->
  sorted l pkey = Err TypeError.
Proof.
  intros Hlen Hex.
  assert (H : exists e, sorted l pkey = Err e).
  { destruct l as [|x0 [|x1 l]]; cbn in Hlen; try lia.
    unfold sorted; cbn [foldM insort rbind].
    destruct (unorderable (pkey x0)) eqn:H0.
    - rewrite (py_lt_unorderable_r (pkey x1) _ H0); eexists; reflexivity.
    - change (exists e, foldM (fun acc x => insort pkey x acc) (x1 :: l) [x0]
                        = Err e).
      apply foldM_insort_unorderable; [discriminate|].
      inversion Hex; subst; [congruence | assumption]. }
  destruct H as [e He]; rewrite He; f_equal.
  apply (foldM_insort_raises_TypeError _ _ _ He).
Qed.

End SortErrors.

(** ** More on the stable sort *)

Section SortOrder.

Variable A : Type.
Variable key : A -> pystr.

Lemma filter_key_unique (c : pystr) (l : list A) :
  NoDup (map key l) -> List.length (filter (has_key key c) l) <= 1.
Proof.
  induction l as [|x l IH]; cbn [map filter]; [intros _; cbn; lia|].
  intros H; inversion H as [|? ? Hx Hl]; subst.
  destruct (has_key key c x) eqn:E; [|apply IH, Hl].
  apply str_eqb_eq in E; subst c.
  destruct (filter (has_key key (key x)) l) as [|y r] eqn:F; [cbn; lia|].
  exfalso; apply Hx.
  assert (Hy : In y (filter (has_key key (key x)) l))
    by (rewrite F; left; reflexivity).
  apply filter_In in Hy; destruct Hy as [Hy Hk].
  apply str_eqb_eq in Hk; rewrite <- Hk; apply in_map, Hy.
Qed.

Lemma filter_perm_unique (c : pystr) (l1 l2 : list A) :
  Permutation l1 l2 -> NoDup (map key l1) ->
  filter (has_key key c) l1 = filter (has_key key c) l2.
Proof.
  intros Hp Hn.
  pose proof (filter_key_unique c l1 Hn) as Hlen.
  assert (Hf : Permutation (filter (has_key key c) l1)
                           (filter (has_key key c) l2)).
  { clear Hn Hlen; induction Hp; cbn [filter].
    - reflexivity.
    - destruct (has_key key c x); [constructor|]; assumption.
    - destruct (has_key key c x), (has_key key c y);
        try reflexivity; apply perm_swap.
    - etransitivity; eassumption. }
  destruct (filter (has_key key c) l1) as [|a [|b r]]; cbn in Hlen; try lia.
  - apply Permutation_nil in Hf; congruence.
  - apply Permutation_length_1_inv in Hf; congruence.
Qed.

(** With distinct keys the order of the input does not matter. *)
Lemma psort_perm_unique (l1 l2 : list A) :
  Permutation l1 l2 -> NoDup (map key l1) -> psort key l1 = psort key l2.
Proof.
  intros Hp Hn; apply (sorted_filters_eq A key); try apply psort_sorted.
  intros c; rewrite !psort_stable; apply filter_perm_unique; assumption.
Qed.


(** A list that is sorted already is left as it is. *)
Lemma psort_sorted_id (l : list A) :
  StronglySorted (key_le key) l -> psort key l = l.
Proof.
  intros H; symmetry; apply (stable_sort_unique A key); [exact H | reflexivity].
Qed.

Lemma sorted_prefix_le (l1 l2 : list A) (a : A) :
  StronglySorted (key_le key) (l1 ++ a :: l2) ->
  Forall (fun y => key_le key y a) l1.
Proof.
  induction l1 as [|y l1 IH]; cbn [app]; intros H; [constructor|].
  inversion H as [|? ? Hs Hy]; subst; constructor; [|apply IH, Hs].
  rewrite Forall_forall in Hy; apply Hy, in_or_app; right; left; reflexivity.
Qed.

(** In a sorted list an element with a smaller key stands before one with a
    larger key. *)
Lemma sorted_before (l : list A) (a b : A) :
  StronglySorted (key_le key) l -> In a l -> In b l ->
  str_ltb (key a) (key b) = true ->
  exists l1 l2 l3, l = l1 ++ a :: l2 ++ b :: l3.
Proof.
  intros Hs Ha Hb Hlt.
  apply in_split in Ha; destruct Ha as (l1 & l2 & ->).
  apply in_app_or in Hb; destruct Hb as [Hb|[Hb|Hb]].
  - pose proof (sorted_prefix_le l1 l2 a Hs) as Hle.
    rewrite Forall_forall in Hle; specialize (Hle b Hb).
    unfold key_le, str_leb in Hle; rewrite Hlt in Hle; discriminate.
  - subst b; rewrite str_ltb_irrefl in Hlt; discriminate.
  - apply in_split in Hb; destruct Hb as (l2' & l3 & ->).
    exists l1, l2', l3; reflexivity.
Qed.

End SortOrder.

(** ** The pipeline of [gen_cc] *)

Section Pipeline.

Variable json_loads : pystr -> result pyval.
Variable py_repr : pyval -> pystr.

Abbreviation fmt_entry := (fmt_entry py_repr).
Abbreviation loop_body := (loop_body py_repr).
Abbreviation gen_cc := (gen_cc json_loads py_repr).
Abbreviation script := (script json_loads py_repr).
Abbreviation line := (line py_repr).
Abbreviation rendering := (rendering py_repr).
Abbreviation sorted_items := (sorted_items json_loads).
Abbreviation encodable_item := (encodable_item py_repr).
Abbreviation printable_record := (printable_record py_repr).

Lemma project_has_keys (r : pyval) :
  has_keys r = true -> project r = Ok (pair_of r).
Proof.
  destruct r as [| | | | |l|d]; try discriminate.
  unfold has_keys, project, pair_of, getitem, field.
  destruct (lookup (lit "alpha-2") d); [|discriminate].
  destruct (lookup (lit "name") d); [|discriminate].
  reflexivity.
Qed.

Lemma project_no_keys (r : pyval) :
  has_keys r = false -> exists e, project r = Err e.
Proof.
  destruct r as [| | | | |l|d]; try (eexists; reflexivity).
  unfold has_keys, project, getitem.
  destruct (lookup (lit "alpha-2") d); [|eexists; reflexivity].
  destruct (lookup (lit "name") d); [discriminate|eexists; reflexivity].
Qed.

Lemma mapM_project (recs : list pyval) :
  forallb has_keys recs = true -> mapM project recs = Ok (map pair_of recs).
Proof.
  induction recs as [|r recs IH]; [reflexivity|].
  cbn [forallb mapM map]; rewrite andb_true_iff; intros [Hr Hrecs].
  rewrite (project_has_keys r Hr), (IH Hrecs); reflexivity.
Qed.

Lemma mapM_project_fails (recs : list pyval) :
  forallb has_keys recs = false -> exists e, mapM project recs = Err e.
Proof.
  induction recs as [|r recs IH]; [discriminate|].
  cbn [forallb mapM]; destruct (has_keys r) eqn:Hr; cbn [andb].
  - intros H; destruct (IH H) as [e He].
    rewrite (project_has_keys r Hr), He; eexists; reflexivity.
  - intros _; destruct (project_no_keys r Hr) as [e He].
    rewrite He; eexists; reflexivity.
Qed.

(** The condition [i % 1 == 0] of the loop holds at every turn. *)
Lemma grouping_always (i : nat) : (i mod 1 =? 0) = true.
Proof. rewrite Nat.mod_1_r; reflexivity. Qed.

Lemma loop_body_turn (items : list item) (body : pystr) (i : nat) (it : item) :
  nth_error items i = Some it ->
  loop_body items body i = Ok (body ++ line it).
Proof.
  intros H; unfold loop_body, list_getitem; rewrite H; cbn [rbind].
  rewrite grouping_always; unfold line; rewrite <- !app_assoc; reflexivity.
Qed.

Lemma loop_from (pre l : list item) (body : pystr) :
  foldM (loop_body (pre ++ l)) (seq (List.length pre) (List.length l)) body =
  Ok (body ++ flat_map line l).
Proof.
  revert pre body; induction l as [|it l IH]; intros pre body.
  - cbn; rewrite app_nil_r; reflexivity.
  - cbn [List.length seq foldM flat_map].
    rewrite (loop_body_turn _ body _ it)
      by (rewrite nth_error_app2, Nat.sub_diag by lia; reflexivity).
    cbn [rbind].
    replace (pre ++ it :: l) with ((pre ++ [it]) ++ l)
      by (rewrite <- app_assoc; reflexivity).
    replace (S (List.length pre)) with (List.length (pre ++ [it]))
      by (rewrite length_app; cbn; lia).
    rewrite IH, <- app_assoc; reflexivity.
Qed.

(** The loop appends one line per item, in the order of the list. *)
Lemma loop_all (items : list item) :
  foldM (loop_body items) (seq 0 (List.length items)) [] =
  Ok (flat_map line items).
Proof. exact (loop_from [] items []). Qed.

(** The text of the table can be written when the string forms of the items
    can. *)
Lemma encodable_rendering (items : list item) :
  encodable (rendering items) = forallb encodable_item items.
Proof.
  unfold rendering, fmt_code, str_of_int.
  rewrite !encodable_app, !encodable_lit, encodable_flat_map.
  change (encodable NL) with true; rewrite !andb_true_r; cbn [andb].
  apply forallb_eq; intros it.
  unfold line, fmt_entry, encodable_item.
  rewrite !encodable_app, !encodable_lit.
  change (encodable NL) with true; change (encodable DQ) with true.
  cbn [andb]; rewrite !andb_true_r; reflexivity.
Qed.

(** [gen_cc] by cases on the file, on the outcome of lines 15 to 17 and on
    whether the text can be written. *)
Lemma gen_cc_eq (w : world) :
  gen_cc w =
  match fs w (ISO3166_DATA w) with
  | Missing => (w, Err FileNotFoundError)
  | Unreadable => (w, Err OSError)
  | Text t =>
      match sorted_items t with
      | Ok items =>
          if encodable (rendering items)
          then (emit w (rendering items), Ok tt)
          else (w, Err UnicodeEncodeError)
      | Err e => (w, Err e)
      end
  end.
Proof.
  unfold gen_cc, bind, open_read, lift, sorted_items.
  destruct (fs w (ISO3166_DATA w)) as [| |t]; try reflexivity.
  destruct (json_loads t) as [data|e]; [|reflexivity]; cbn [rbind].
  destruct (py_iter data) as [elems|e]; [|reflexivity]; cbn [rbind].
  destruct (mapM project elems) as [items|e]; [|reflexivity]; cbn [rbind].
  destruct (sorted items fst) as [items'|e]; [|reflexivity].
  rewrite loop_all; reflexivity.
Qed.

(** On a dataset of valid records the sorted list is the stable sort, by
    code, of the projected pairs. *)
Lemma pair_of_keyed (r : pyval) :
  valid_record r = true -> str_keyed code_of fst (pair_of r).
Proof.
  unfold valid_record, str_keyed, code_of, pair_of; cbn [fst].
  rewrite andb_true_iff; intros [_ H].
  destruct (field (lit "alpha-2") r); try discriminate; reflexivity.
Qed.

Lemma sorted_items_valid (t : pystr) (recs : list pyval) :
  json_loads t = Ok (PList recs) ->
  forallb valid_record recs = true ->
  sorted_items t = Ok (psort code_of (map pair_of recs)).
Proof.
  intros Ht Hv; unfold sorted_items; rewrite Ht; cbn [rbind py_iter].
  rewrite mapM_project.
  - cbn [rbind]; apply sorted_pure.
    rewrite Forall_map, Forall_forall; intros r Hr.
    apply pair_of_keyed.
    rewrite forallb_forall in Hv; auto.
  - rewrite forallb_forall in Hv |- *; intros r Hr.
    specialize (Hv r Hr); unfold valid_record in Hv.
    apply andb_true_iff in Hv; tauto.
Qed.

Lemma printable_items (recs : list pyval) (items : list item) :
  Permutation items (map pair_of recs) ->
  forallb printable_record recs = true ->
  encodable (rendering items) = true.
Proof.
  intros Hp Hr; rewrite encodable_rendering, (forallb_perm _ _ _ Hp).
  rewrite forallb_forall in Hr |- *; intros it Hit.
  apply in_map_iff in Hit; destruct Hit as (r & <- & Hin); exact (Hr r Hin).
Qed.

Lemma gen_cc_valid (w : world) (t : pystr) (recs : list pyval) :
  fs w (ISO3166_DATA w) = Text t ->
  json_loads t = Ok (PList recs) ->
  forallb valid_record recs = true ->
  forallb printable_record recs = true ->
  gen_cc w = (emit w (rendering (psort code_of (map pair_of recs))), Ok tt).
Proof.
  intros Hf Ht Hv Hp; rewrite gen_cc_eq, Hf, (sorted_items_valid t recs Ht Hv).
  rewrite (printable_items recs _ (psort_perm _ _ _) Hp); reflexivity.
Qed.

Lemma written_emit (w : world) (text : pystr) :
  written w (emit w text) = text ++ NL.
Proof.
  unfold written, emit; cbn [stdout].
  rewrite skipn_app, skipn_all, Nat.sub_diag; reflexivity.
Qed.

Lemma written_same (w : world) : written w w = [].
Proof. unfold written; apply skipn_all. Qed.

(** Every item has its entry in the body. *)
Lemma body_contains (items : list item) (it : item) :
  In it items ->
  exists pre post, flat_map line items = pre ++ fmt_entry it ++ post.
Proof.
  intros H; apply in_split in H; destruct H as (l1 & l2 & ->).
  exists (flat_map line l1 ++ NL ++ lit "    "), (flat_map line l2).
  rewrite flat_map_app; cbn [flat_map]; unfold line.
  rewrite <- !app_assoc; reflexivity.
Qed.

Lemma sorted_items_keys (t : pystr) (recs : list pyval) :
  json_loads t = Ok (PList recs) ->
  forallb has_keys recs = true ->
  sorted_items t = sorted (map pair_of recs) fst.
Proof.
  intros Ht Hk; unfold sorted_items; rewrite Ht; cbn [rbind py_iter].
  rewrite (mapM_project recs Hk); reflexivity.
Qed.

Lemma sorted_items_no_keys (t : pystr) (recs : list pyval) :
  json_loads t = Ok (PList recs) ->
  forallb has_keys recs = false ->
  exists e, sorted_items t = Err e.
Proof.
  intros Ht Hk; unfold sorted_items; rewrite Ht; cbn [rbind py_iter].
  destruct (mapM_project_fails recs Hk) as [e He]; rewrite He.
  exists e; reflexivity.
Qed.

(** A run either raises and leaves the world as it was, or prints the literal
    of a list of items. *)
Lemma gen_cc_cases (w : world) :
  (exists e, gen_cc w = (w, Err e)) \/
  (exists items, gen_cc w = (emit w (rendering items), Ok tt)).
Proof.
  rewrite gen_cc_eq.
  destruct (fs w (ISO3166_DATA w)) as [| |t]; try (left; eexists; reflexivity).
  destruct (sorted_items t) as [items|e]; [|left; exists e; reflexivity].
  destruct (encodable (rendering items));
    [right; exists items | left; eexists]; reflexivity.
Qed.

(** On valid records the printed list, with each entry spelt out. *)
Lemma gen_cc_valid_text (w : world) (t : pystr) (recs : list pyval) :
  fs w (ISO3166_DATA w) = Text t ->
  json_loads t = Ok (PList recs) ->
  forallb valid_record recs = true ->
  forallb printable_record recs = true ->
  gen_cc w =
  (World (script_dir w) (fs w)
     (stdout w ++
      (NL ++ lit "pub static COUNTRY_CODES: [(&'static str, &'static str); " ++
       lit (NilZero.string_of_int (Z.to_int (Z.of_nat (List.length recs)))) ++
       lit "] = [" ++
       (flat_map (fun it => NL ++ lit "    " ++
                            lit "(" ++ DQ ++ code_of it ++ DQ ++ lit ", " ++
                            DQ ++ py_str py_repr (snd it) ++ DQ ++ lit "), ")
                 (psort code_of (map pair_of recs)) ++ NL) ++
       lit "];" ++ NL) ++ NL),
   Ok tt).
Proof.
  intros Hf Ht Hv Hp; rewrite (gen_cc_valid w t recs Hf Ht Hv Hp).
  unfold emit, rendering, fmt_code, str_of_int.
  rewrite psort_length, length_map.
  assert (Hk : Forall (str_keyed code_of fst) (psort code_of (map pair_of recs))).
  { eapply Permutation_Forall; [symmetry; apply psort_perm|].
    rewrite Forall_map, Forall_forall; intros r Hr.
    apply pair_of_keyed; rewrite forallb_forall in Hv; auto. }
  assert (Hbody :
            flat_map line (psort code_of (map pair_of recs)) =
            flat_map (fun it => NL ++ lit "    " ++
                                lit "(" ++ DQ ++ code_of it ++ DQ ++ lit ", " ++
                                DQ ++ py_str py_repr (snd it) ++ DQ ++ lit "), ")
                     (psort code_of (map pair_of recs))).
  { induction Hk as [|it l Hit _ IH]; [reflexivity|].
    cbn [flat_map]; rewrite IH; f_equal.
    unfold line, fmt_entry, py_str at 1.
    rewrite Hit; reflexivity. }
  rewrite Hbody; reflexivity.
Qed.

(** *** Records of two texts *)






End Pipeline.

(** ** Decimal numbers *)

Lemma unlit_lit (s : string) : unlit (lit s) = s.
Proof.
  unfold unlit, lit; rewrite map_map.
  rewrite (map_ext _ (fun a => a)) by (intros a; apply ascii_N_embedding).
  rewrite map_id; apply string_of_list_ascii_of_string.
Qed.

(** What [%d] prints is the decimal numeral of the number. *)
Lemma str_of_int_reads_back (z : Z) : int_of_str (str_of_int z) = Some z.
Proof.
  unfold int_of_str, str_of_int; rewrite unlit_lit, NilZero.isi.
  - cbn [option_map]; rewrite DecimalZ.of_to; reflexivity.
  - destruct z as [|p|p]; cbn; try discriminate.
    intros H; injection H as H; exact (DecimalPos.Unsigned.to_uint_nonnil _ H).
  - destruct z as [|p|p]; cbn; try discriminate.
    intros H; injection H as H; exact (DecimalPos.Unsigned.to_uint_nonnil _ H).
Qed.

(** ** The generated table *)

Section Table.

Variable json_loads : pystr -> result pyval.
Variable py_repr : pyval -> pystr.

Abbreviation py_str := (py_str py_repr).
Abbreviation fmt_entry := (fmt_entry py_repr).
Abbreviation gen_cc := (gen_cc json_loads py_repr).
Abbreviation script := (script json_loads py_repr).
Abbreviation line := (line py_repr).
Abbreviation rendering := (rendering py_repr).
Abbreviation sorted_items := (sorted_items json_loads).
Abbreviation encodable_item := (encodable_item py_repr).
Abbreviation printable_record := (printable_record py_repr).

(** C1, as the code has it. For every dataset that is a JSON list of
    records each containing the keys alpha-2 and name, whose alpha-2 values
    are strings and whose values have string forms with no lone surrogate,
    [gen_cc] prints a literal whose body holds one entry per record of the
    input list, no more and no fewer, and the number printed in the
    declaration is the decimal numeral of the number of records. *)
Theorem gen_cc_cardinality (w : world) (t : pystr) (recs : list pyval) :
  fs w (ISO3166_DATA w) = Text t ->
  json_loads t = Ok (PList recs) ->
  forallb valid_record recs = true ->
  forallb printable_record recs = true ->
  exists (items : list item) (count : pystr),
    Permutation items (map pair_of recs) /\
    List.length items = List.length recs /\
    count = lit (NilZero.string_of_int (Z.to_int (Z.of_nat (List.length recs)))) /\
    int_of_str count = Some (Z.of_nat (List.length recs)) /\
    gen_cc w =
    (World (script_dir w) (fs w)
       (stdout w ++
        (NL ++ lit "pub static COUNTRY_CODES: [(&'static str, &'static str); " ++
         count ++ lit "] = [" ++
         (flat_map (fun it => NL ++ lit "    " ++
                              lit "(" ++ DQ ++ code_of it ++ DQ ++ lit ", " ++
                              DQ ++ py_str (snd it) ++ DQ ++ lit "), ")
                   items ++ NL) ++
         lit "];" ++ NL) ++ NL),
     Ok tt).
Proof.
  intros Hf Ht Hv Hp.
  exists (psort code_of (map pair_of recs)),
         (str_of_int (Z.of_nat (List.length recs))).
  split; [apply psort_perm|].
  split; [rewrite psort_length, length_map; reflexivity|].
  split; [reflexivity|].
  split; [apply str_of_int_reads_back|].
  apply (gen_cc_valid_text json_loads py_repr w t recs Hf Ht Hv Hp).
Qed.

(** C2. On a valid dataset, one whose texts standard output can encode (no
    lone surrogate), the pairs of the printed body are the input pairs
    sorted by code, ascending in the byte-wise order of the UTF-8 encoding
    (which is the code point order Python compares strings by); pairs with
    equal codes keep the order they have in the input; and the codes alone
    decide the order: any arrangement that is sorted by code and keeps the
    input order among equal codes is the printed one. *)
Theorem gen_cc_sorted_stable (w : world) (t : pystr) (recs : list pyval) :
  fs w (ISO3166_DATA w) = Text t ->
  json_loads t = Ok (PList recs) ->
  forallb valid_record recs = true ->
  forallb printable_record recs = true ->
  exists items : list item,
    gen_cc w = (emit w (rendering items), Ok tt) /\
    Permutation items (map pair_of recs) /\
    StronglySorted
      (fun a b => str_leb (utf8 (code_of a)) (utf8 (code_of b)) = true) items /\
    StronglySorted (fun a b => str_leb (code_of a) (code_of b) = true) items /\
    (forall c : pystr,
        filter (fun it => str_eqb (code_of it) c) items =
        filter (fun it => str_eqb (code_of it) c) (map pair_of recs)) /\
    (forall r : list item,
        StronglySorted (fun a b => str_leb (code_of a) (code_of b) = true) r ->
        (forall c : pystr,
            filter (fun it => str_eqb (code_of it) c) r =
            filter (fun it => str_eqb (code_of it) c) (map pair_of recs)) ->
        r = items).
Proof.
  intros Hf Ht Hv Hp.
  exists (psort code_of (map pair_of recs)).
  split; [apply (gen_cc_valid json_loads py_repr w t recs Hf Ht Hv Hp)|].
  split; [apply psort_perm|].
  split.
  { eapply StronglySorted_weaken; [|apply psort_sorted].
    intros a b H; rewrite utf8_leb; exact H. }
  split; [apply psort_sorted|].
  split; [intros c; apply (psort_stable item code_of)|].
  intros r Hr Hs; apply stable_sort_unique; [exact Hr | exact Hs].
Qed.

(** C3. On a valid dataset whose texts standard output can encode (no
    lone surrogate) the text written to standard output is, to the
    character: an empty line; the declaration
    [pub static COUNTRY_CODES: [(&'static str, &'static str); <N>] = [<body>];]
    and the end of its line; an empty line.  [<N>] is the decimal numeral of
    the number of records.  The body is one line per pair, each a line
    break, four spaces and one entry [("CODE", "Name"), ], then a last line
    break before the closing bracket.  The test [i % 1 == 0] that starts a
    new line holds for every [i]. *)
Theorem gen_cc_output_format (w : world) (t : pystr) (recs : list pyval) :
  fs w (ISO3166_DATA w) = Text t ->
  json_loads t = Ok (PList recs) ->
  forallb valid_record recs = true ->
  forallb printable_record recs = true ->
  exists (items : list item) (count body : pystr),
    Permutation items (map pair_of recs) /\
    count = lit (NilZero.string_of_int (Z.to_int (Z.of_nat (List.length recs)))) /\
    int_of_str count = Some (Z.of_nat (List.length recs)) /\
    body =
      flat_map (fun it =>
                  NL ++ lit "    " ++
                  lit "(" ++ DQ ++ code_of it ++ DQ ++ lit ", " ++
                  DQ ++ py_str (snd it) ++ DQ ++ lit "), ") items ++ NL /\
    (forall i : nat, (i mod 1 =? 0) = true) /\
    snd (gen_cc w) = Ok tt /\
    written w (fst (gen_cc w)) =
      NL ++
      lit "pub static COUNTRY_CODES: [(&'static str, &'static str); " ++
      count ++ lit "] = [" ++ body ++ lit "];" ++
      NL ++
      NL.
Proof.
  intros Hf Ht Hv Hp.
  exists (psort code_of (map pair_of recs)),
         (str_of_int (Z.of_nat (List.length recs))).
  eexists; split; [apply psort_perm|].
  split; [reflexivity|].
  split; [apply str_of_int_reads_back|].
  split; [reflexivity|].
  split; [apply grouping_always|].
  rewrite (gen_cc_valid_text json_loads py_repr w t recs Hf Ht Hv Hp).
  cbn [fst snd]; split; [reflexivity|].
  unfold written; cbn [stdout].
  rewrite skipn_app, skipn_all, Nat.sub_diag; cbn [skipn app].
  unfold str_of_int; rewrite <- !app_assoc; reflexivity.
Qed.

(** C4. When the dataset file is missing or unreadable, when its text is
    not valid JSON, or when a parsed record lacks the key alpha-2 or the key
    name, [gen_cc] raises with nothing written to standard output and the
    process ends with status 1.  A run that succeeds has written the whole
    literal and ends with status 0.  There is nothing in between: a run
    raises before it prints or prints the whole literal. *)
Theorem gen_cc_all_or_nothing (w : world) :
  (fs w (ISO3166_DATA w) = Missing \/
   fs w (ISO3166_DATA w) = Unreadable \/
   (exists t e, fs w (ISO3166_DATA w) = Text t /\ json_loads t = Err e) \/
   (exists t recs d,
       fs w (ISO3166_DATA w) = Text t /\ json_loads t = Ok (PList recs) /\
       In (PDict d) recs /\
       (lookup (lit "alpha-2") d = None \/ lookup (lit "name") d = None)) ->
   exists e, gen_cc w = (w, Err e) /\
             written w (fst (gen_cc w)) = [] /\
             script w = (w, 1%Z)) /\
  (forall w', gen_cc w = (w', Ok tt) ->
     exists items, written w w' = rendering items ++ NL /\
                   script w = (w', 0%Z)) /\
  ((exists e, gen_cc w = (w, Err e)) \/
   (exists items, gen_cc w = (emit w (rendering items), Ok tt))).
Proof.
  assert (Herr : forall e, gen_cc w = (w, Err e) ->
                 exists e, gen_cc w = (w, Err e) /\
                           written w (fst (gen_cc w)) = [] /\
                           script w = (w, 1%Z)).
  { intros e He; exists e; unfold script, main.
    rewrite He; cbn [fst]; rewrite written_same; auto. }
  split; [|split; [|apply gen_cc_cases]].
  - intros [H|[H|[(t & e & H & Ht)|(t & recs & d & H & Ht & Hd & Hk)]]].
    + apply (Herr FileNotFoundError); rewrite gen_cc_eq, H; reflexivity.
    + apply (Herr OSError); rewrite gen_cc_eq, H; reflexivity.
    + apply (Herr e); rewrite gen_cc_eq, H.
      unfold sorted_items; rewrite Ht; reflexivity.
    + assert (Hno : forallb has_keys recs = false).
      { destruct (forallb has_keys recs) eqn:E; [|reflexivity].
        rewrite forallb_forall in E; specialize (E _ Hd); cbn [has_keys] in E.
        destruct Hk as [Hk|Hk]; rewrite Hk in E;
          [|destruct (lookup (lit "alpha-2") d)]; discriminate. }
      destruct (sorted_items_no_keys json_loads t recs Ht Hno) as [e He].
      apply (Herr e); rewrite gen_cc_eq, H, He; reflexivity.
  - intros w' Hw'; destruct (gen_cc_cases json_loads py_repr w)
      as [[e He]|[items Hi]]; [rewrite He in Hw'; discriminate|].
    rewrite Hi in Hw'; injection Hw' as <-.
    exists items; split; [apply written_emit|].
    unfold script, main; rewrite Hi; reflexivity.
Qed.


(** C6, as the code has it. For the empty dataset (a list of no records)
    [gen_cc] prints a literal whose declared length is 0 and whose body holds
    no entry: between the brackets stands the one line break that ends every
    body. *)
Theorem gen_cc_empty_dataset (w : world) (t : pystr) :
  fs w (ISO3166_DATA w) = Text t ->
  json_loads t = Ok (PList []) ->
  gen_cc w =
  (World (script_dir w) (fs w)
     (stdout w ++
      (NL ++ lit "pub static COUNTRY_CODES: [(&'static str, &'static str); 0] = [" ++
       NL ++ lit "];" ++ NL) ++ NL),
   Ok tt).
Proof.
  intros Hf Ht.
  rewrite (gen_cc_valid json_loads py_repr w t [] Hf Ht eq_refl eq_refl).
  reflexivity.
Qed.

(** C7. The name of a pair goes into its entry as it is, with no character
    added, dropped or changed: on a valid dataset whose texts standard
    output can encode (no lone surrogate), for every record whose name is a
    string, the text written holds the entry with that very string
    between the quotes that delimit it; and when the name holds a double
    quote, that double quote stands in the output right after the part of
    the name that precedes it. *)
Theorem gen_cc_no_escaping (w : world) (t : pystr) (recs : list pyval)
    (r : pyval) (code name : pystr) :
  fs w (ISO3166_DATA w) = Text t ->
  json_loads t = Ok (PList recs) ->
  forallb valid_record recs = true ->
  forallb printable_record recs = true ->
  In r recs ->
  field (lit "alpha-2") r = PStr code ->
  field (lit "name") r = PStr name ->
  (exists pre post,
      written w (fst (gen_cc w)) =
      pre ++ lit "(" ++ DQ ++ code ++ DQ ++ lit ", " ++
      DQ ++ name ++ DQ ++ lit "), " ++ post) /\
  (forall a b, name = a ++ DQ ++ b ->
     exists pre post,
       written w (fst (gen_cc w)) =
       pre ++ lit "(" ++ DQ ++ code ++ DQ ++ lit ", " ++
       DQ ++ a ++ DQ ++ b ++ DQ ++ lit "), " ++ post).
Proof.
  intros Hf Ht Hv Hp Hr Hc Hn.
  assert (H : exists pre post,
             written w (fst (gen_cc w)) =
             pre ++ lit "(" ++ DQ ++ code ++ DQ ++ lit ", " ++
             DQ ++ name ++ DQ ++ lit "), " ++ post).
  { rewrite (gen_cc_valid json_loads py_repr w t recs Hf Ht Hv Hp).
    cbn [fst]; rewrite written_emit.
    set (items := psort code_of (map pair_of recs)).
    assert (Hi : In (pair_of r) items).
    { apply (Permutation_in _ (Permutation_sym (psort_perm _ code_of _))).
      apply in_map, Hr. }
    destruct (body_contains py_repr items _ Hi) as (pre & post & E).
    unfold rendering, fmt_code; rewrite E.
    unfold fmt_entry, pair_of; cbn [fst snd]; rewrite Hc, Hn.
    cbn [py_str].
    exists (NL ++
            lit "pub static COUNTRY_CODES: [(&'static str, &'static str); " ++
            str_of_int (Z.of_nat (List.length items)) ++ lit "] = [" ++ pre),
           (post ++ NL ++ lit "];" ++ NL ++ NL).
    rewrite <- !app_assoc; reflexivity. }
  split; [exact H|].
  intros a b ->; destruct H as (pre & post & H).
  exists pre, post; rewrite H, <- !app_assoc; reflexivity.
Qed.

(** C8. The text a run writes and the way it ends are a function of the
    dataset file alone: two runs that find the same dataset (missing,
    unreadable, or the same text) write the same characters and end the same
    way, whatever else differs between their worlds; a run changes neither
    the files nor the script's location, so a second run right after the
    first writes the same text again. *)
Theorem gen_cc_deterministic (w1 w2 : world) :
  fs w1 (ISO3166_DATA w1) = fs w2 (ISO3166_DATA w2) ->
  written w1 (fst (gen_cc w1)) = written w2 (fst (gen_cc w2)) /\
  snd (gen_cc w1) = snd (gen_cc w2) /\
  fs (fst (gen_cc w1)) = fs w1 /\
  script_dir (fst (gen_cc w1)) = script_dir w1 /\
  written (fst (gen_cc w1)) (fst (gen_cc (fst (gen_cc w1)))) =
  written w1 (fst (gen_cc w1)).
Proof.
  assert (Hsame : forall u v, fs u (ISO3166_DATA u) = fs v (ISO3166_DATA v) ->
            written u (fst (gen_cc u)) = written v (fst (gen_cc v)) /\
            snd (gen_cc u) = snd (gen_cc v)).
  { intros u v H; rewrite !gen_cc_eq, H.
    destruct (fs v (ISO3166_DATA v)) as [| |t]; cbn [fst snd];
      rewrite ?written_same; auto.
    destruct (sorted_items t) as [items|e]; cbn [fst snd];
      rewrite ?written_same; auto.
    destruct (encodable (rendering items)); cbn [fst snd];
      rewrite ?written_emit, ?written_same; auto. }
  assert (Hkeep : fs (fst (gen_cc w1)) = fs w1 /\
                  script_dir (fst (gen_cc w1)) = script_dir w1).
  { destruct (gen_cc_cases json_loads py_repr w1) as [[e He]|[items Hi]];
      [rewrite He | rewrite Hi]; split; reflexivity. }
  intros H; destruct (Hsame w1 w2 H) as [Hw Hr], Hkeep as [Hfs Hdir].
  repeat split; try assumption.
  apply Hsame; unfold ISO3166_DATA, SCRIPT_DIR; rewrite Hfs, Hdir; reflexivity.
Qed.

(** C9. Whenever [gen_cc] succeeds, the number in the declaration and the
    entries of the body come from one list: the file held a text whose
    elements were each projected to a pair, the printed items are a
    rearrangement of these pairs, the body is the entries of the printed
    items, one line each and nothing else, and the declaration holds the
    decimal numeral of the number of these items, which is the number of
    elements of the dataset. *)
Theorem gen_cc_length_matches_body (w w' : world) :
  gen_cc w = (w', Ok tt) ->
  exists (t : pystr) (data : pyval) (elems : list pyval)
         (pairs items : list item) (count : pystr),
    fs w (ISO3166_DATA w) = Text t /\
    json_loads t = Ok data /\
    py_iter data = Ok elems /\
    Forall2 (fun elem it => getitem elem (lit "alpha-2") = Ok (fst it) /\
                            getitem elem (lit "name") = Ok (snd it))
            elems pairs /\
    Permutation items pairs /\
    List.length items = List.length elems /\
    count = lit (NilZero.string_of_int (Z.to_int (Z.of_nat (List.length items)))) /\
    int_of_str count = Some (Z.of_nat (List.length items)) /\
    written w w' =
      NL ++
      lit "pub static COUNTRY_CODES: [(&'static str, &'static str); " ++
      count ++ lit "] = [" ++
      (flat_map (fun it =>
                   NL ++ lit "    " ++
                   lit "(" ++ DQ ++ py_str (fst it) ++ DQ ++ lit ", " ++
                   DQ ++ py_str (snd it) ++ DQ ++ lit "), ") items ++ NL) ++
      lit "];" ++ NL ++ NL.
Proof.
  rewrite gen_cc_eq.
  destruct (fs w (ISO3166_DATA w)) as [| |t] eqn:Hf; try discriminate.
  unfold sorted_items.
  destruct (json_loads t) as [data|e] eqn:Ht; [|discriminate]; cbn [rbind].
  destruct (py_iter data) as [elems|e] eqn:Hi; [|discriminate]; cbn [rbind].
  destruct (mapM project elems) as [pairs|e] eqn:Hm; [|discriminate].
  cbn [rbind].
  destruct (sorted pairs fst) as [items|e] eqn:Hs; [|discriminate].
  destruct (encodable (rendering items)); [|discriminate].
  intros H; injection H as <-.
  assert (HF : Forall2 (fun elem it =>
                          getitem elem (lit "alpha-2") = Ok (fst it) /\
                          getitem elem (lit "name") = Ok (snd it))
                       elems pairs).
  { clear Hs Hi; revert pairs Hm; induction elems as [|x elems IH];
      intros pairs; cbn [mapM].
    - intros H; injection H as <-; constructor.
    - unfold project at 1.
      destruct (getitem x (lit "alpha-2")) as [a|e] eqn:Ea; [|discriminate].
      destruct (getitem x (lit "name")) as [n|e] eqn:En; [|discriminate].
      cbn [rbind].
      destruct (mapM project elems) as [ps|e]; [|discriminate]; cbn [rbind].
      intros H; injection H as <-; constructor; [split; assumption|].
      apply IH; reflexivity. }
  pose proof (sorted_ok_perm item fst pairs items Hs) as Hp.
  exists t, data, elems, pairs, items,
         (str_of_int (Z.of_nat (List.length items))).
  repeat (split; [reflexivity || assumption|]).
  split; [rewrite (Permutation_length Hp); symmetry; apply (Forall2_length HF)|].
  split; [reflexivity|].
  split; [apply str_of_int_reads_back|].
  rewrite written_emit; unfold rendering, fmt_code, str_of_int.
  rewrite <- !app_assoc; reflexivity.
Qed.

(** C10, as the code has it. No value is validated, but the codes are
    compared and the text is encoded: with both keys in every record and no
    lone surrogate in the string forms of the values, no error is raised
    when the dataset has at most one record, or when every alpha-2 value is
    a string (of any length, in any case), or more generally when [<] is
    defined between the alpha-2 values of every two records; the name may be
    any JSON value.  Each value is then printed in its string form as it
    is. *)
Theorem gen_cc_no_validation (w : world) (t : pystr) (recs : list pyval) :
  fs w (ISO3166_DATA w) = Text t ->
  json_loads t = Ok (PList recs) ->
  forallb has_keys recs = true ->
  forallb printable_record recs = true ->
  List.length recs <= 1 \/
  forallb (fun r => is_str (field (lit "alpha-2") r)) recs = true \/
  orderable (map (field (lit "alpha-2")) recs) = true ->
  exists items : list item,
    Permutation items
      (map (fun r => (field (lit "alpha-2") r, field (lit "name") r)) recs) /\
    gen_cc w =
    (World (script_dir w) (fs w)
       (stdout w ++
        (NL ++ lit "pub static COUNTRY_CODES: [(&'static str, &'static str); " ++
         str_of_int (Z.of_nat (List.length recs)) ++ lit "] = [" ++
         (flat_map (fun it =>
                      NL ++ lit "    " ++
                      lit "(" ++ DQ ++ py_str (fst it) ++ DQ ++ lit ", " ++
                      DQ ++ py_str (snd it) ++ DQ ++ lit "), ") items ++ NL) ++
         lit "];" ++ NL) ++ NL),
     Ok tt).
Proof.
  intros Hf Ht Hk Hpr Hord.
  assert (Hs : exists items, sorted (map pair_of recs) fst = Ok items /\
                             Permutation items (map pair_of recs)).
  { destruct Hord as [Hlen|[Hstr|Ho]].
    - destruct recs as [|r [|r' recs']]; cbn in Hlen; try lia;
        eexists; split; reflexivity.
    - apply sorted_total, (str_keyed_orderable item code_of).
      rewrite Forall_map, Forall_forall; intros r Hr.
      rewrite forallb_forall in Hstr; specialize (Hstr r Hr).
      unfold str_keyed, code_of, pair_of; cbn [fst].
      destruct (field (lit "alpha-2") r); try discriminate; reflexivity.
    - apply sorted_total; rewrite map_map; exact Ho. }
  destruct Hs as (items & Hs & Hp).
  exists items; split; [exact Hp|].
  rewrite gen_cc_eq, Hf, (sorted_items_keys json_loads t recs Ht Hk), Hs.
  rewrite (printable_items py_repr recs items Hp Hpr).
  unfold emit, rendering, fmt_code.
  rewrite (Permutation_length Hp), length_map; reflexivity.
Qed.

End Table.

(** ** The theorems at the example inputs *)

(** C1, as stated, fails: each record of these two datasets has both keys,
    and nothing is printed.  In the first the name is a lone surrogate,
    which standard output cannot encode; in the second both codes are null,
    which [sorted] cannot compare. *)
Lemma gen_cc_both_keys_not_enough :
  (ex_json_odd ex_text_surrogate = Ok (PList ex_recs_surrogate) /\
   forallb has_keys ex_recs_surrogate = true /\
   gen_cc ex_json_odd ex_repr (ex_world (Text ex_text_surrogate)) =
     (ex_world (Text ex_text_surrogate), Err UnicodeEncodeError)) /\
  (ex_json_odd ex_text_nulls = Ok (PList ex_recs_nulls) /\
   forallb has_keys ex_recs_nulls = true /\
   gen_cc ex_json_odd ex_repr (ex_world (Text ex_text_nulls)) =
     (ex_world (Text ex_text_nulls), Err TypeError)).
Proof. repeat split. Defined.



(** The example of the specification: two records, [US] before [AD]. *)
Lemma gen_cc_cardinality_witness :
  fs (ex_world (Text ex_text)) (ISO3166_DATA (ex_world (Text ex_text))) =
    Text ex_text /\
  ex_json ex_text = Ok (PList ex_recs) /\
  forallb valid_record ex_recs = true /\
  forallb (printable_record ex_repr) ex_recs = true /\
  exists (items : list item) (count : pystr),
    Permutation items (map pair_of ex_recs) /\
    List.length items = 2 /\
    count = lit "2" /\
    int_of_str count = Some 2%Z /\
    gen_cc ex_json ex_repr (ex_world (Text ex_text)) =
    (World ex_dir (fs (ex_world (Text ex_text)))
       ([] ++
        (NL ++ lit "pub static COUNTRY_CODES: [(&'static str, &'static str); " ++
         count ++ lit "] = [" ++
         (flat_map (fun it => NL ++ lit "    " ++
                              lit "(" ++ DQ ++ code_of it ++ DQ ++ lit ", " ++
                              DQ ++ py_str ex_repr (snd it) ++ DQ ++ lit "), ")
                   items ++ NL) ++
         lit "];" ++ NL) ++ NL),
     Ok tt).
Proof.
  repeat (split; [reflexivity|]).
  apply (gen_cc_cardinality ex_json ex_repr (ex_world (Text ex_text))
           ex_text ex_recs); reflexivity.
Defined.

Lemma gen_cc_sorted_stable_witness :
  fs (ex_world (Text ex_text)) (ISO3166_DATA (ex_world (Text ex_text))) =
    Text ex_text /\
  ex_json ex_text = Ok (PList ex_recs) /\
  forallb valid_record ex_recs = true /\
  forallb (printable_record ex_repr) ex_recs = true /\
  exists items : list item,
    gen_cc ex_json ex_repr (ex_world (Text ex_text)) =
      (emit (ex_world (Text ex_text)) (rendering ex_repr items), Ok tt) /\
    Permutation items (map pair_of ex_recs) /\
    StronglySorted
      (fun a b => str_leb (utf8 (code_of a)) (utf8 (code_of b)) = true) items /\
    StronglySorted (fun a b => str_leb (code_of a) (code_of b) = true) items /\
    (forall c : pystr,
        filter (fun it => str_eqb (code_of it) c) items =
        filter (fun it => str_eqb (code_of it) c) (map pair_of ex_recs)) /\
    (forall r : list item,
        StronglySorted (fun a b => str_leb (code_of a) (code_of b) = true) r ->
        (forall c : pystr,
            filter (fun it => str_eqb (code_of it) c) r =
            filter (fun it => str_eqb (code_of it) c) (map pair_of ex_recs)) ->
        r = items).
Proof.
  repeat (split; [reflexivity|]).
  apply (gen_cc_sorted_stable ex_json ex_repr (ex_world (Text ex_text))
           ex_text ex_recs); reflexivity.
Defined.

Lemma gen_cc_output_format_witness :
  fs (ex_world (Text ex_text)) (ISO3166_DATA (ex_world (Text ex_text))) =
    Text ex_text /\
  ex_json ex_text = Ok (PList ex_recs) /\
  forallb valid_record ex_recs = true /\
  forallb (printable_record ex_repr) ex_recs = true /\
  exists (items : list item) (count body : pystr),
    Permutation items (map pair_of ex_recs) /\
    count = lit "2" /\
    int_of_str count = Some 2%Z /\
    body =
      flat_map (fun it =>
                  NL ++ lit "    " ++
                  lit "(" ++ DQ ++ code_of it ++ DQ ++ lit ", " ++
                  DQ ++ py_str ex_repr (snd it) ++ DQ ++ lit "), ") items ++ NL /\
    (forall i : nat, (i mod 1 =? 0) = true) /\
    snd (gen_cc ex_json ex_repr (ex_world (Text ex_text))) = Ok tt /\
    written (ex_world (Text ex_text))
            (fst (gen_cc ex_json ex_repr (ex_world (Text ex_text)))) =
      NL ++
      lit "pub static COUNTRY_CODES: [(&'static str, &'static str); " ++
      count ++ lit "] = [" ++ body ++ lit "];" ++
      NL ++
      NL.
Proof.
  repeat (split; [reflexivity|]).
  apply (gen_cc_output_format ex_json ex_repr (ex_world (Text ex_text))
           ex_text ex_recs); reflexivity.
Defined.

(** A missing file, a text that is not JSON, a record without a name, and a
    run that succeeds. *)
Lemma gen_cc_all_or_nothing_witness :
  (exists e,
      gen_cc ex_json ex_repr (ex_world Missing) = (ex_world Missing, Err e) /\
      written (ex_world Missing)
              (fst (gen_cc ex_json ex_repr (ex_world Missing))) = [] /\
      script ex_json ex_repr (ex_world Missing) = (ex_world Missing, 1%Z)) /\
  (exists e,
      gen_cc ex_json ex_repr (ex_world (Text (lit "{"))) =
        (ex_world (Text (lit "{")), Err e) /\
      written (ex_world (Text (lit "{")))
              (fst (gen_cc ex_json ex_repr (ex_world (Text (lit "{"))))) = [] /\
      script ex_json ex_repr (ex_world (Text (lit "{"))) =
        (ex_world (Text (lit "{")), 1%Z)) /\
  (exists e,
      gen_cc ex_json ex_repr (ex_world (Text ex_text_nokey)) =
        (ex_world (Text ex_text_nokey), Err e) /\
      written (ex_world (Text ex_text_nokey))
              (fst (gen_cc ex_json ex_repr (ex_world (Text ex_text_nokey)))) = [] /\
      script ex_json ex_repr (ex_world (Text ex_text_nokey)) =
        (ex_world (Text ex_text_nokey), 1%Z)) /\
  (exists items,
      written (ex_world (Text ex_text))
              (fst (gen_cc ex_json ex_repr (ex_world (Text ex_text)))) =
        rendering ex_repr items ++ NL /\
      script ex_json ex_repr (ex_world (Text ex_text)) =
        (fst (gen_cc ex_json ex_repr (ex_world (Text ex_text))), 0%Z)).
Proof.
  split; [|split; [|split]].
  - apply (proj1 (gen_cc_all_or_nothing ex_json ex_repr (ex_world Missing))).
    left; reflexivity.
  - apply (proj1 (gen_cc_all_or_nothing ex_json ex_repr
                    (ex_world (Text (lit "{"))))).
    right; right; left; exists (lit "{"), JSONDecodeError; split; reflexivity.
  - apply (proj1 (gen_cc_all_or_nothing ex_json ex_repr
                    (ex_world (Text ex_text_nokey)))).
    right; right; right.
    exists ex_text_nokey, ex_recs_nokey, [(lit "alpha-2", PStr (lit "US"))].
    repeat split; [left; reflexivity | right; reflexivity].
  - apply (proj1 (proj2 (gen_cc_all_or_nothing ex_json ex_repr
                           (ex_world (Text ex_text))))).
    reflexivity.
Defined.



(** C6, as stated, fails on the empty list: the literal printed for it is
    not the one with nothing between the brackets; its body is a line
    break. *)
Lemma gen_cc_empty_body_not_empty :
  ex_json (lit "[]") = Ok (PList []) /\
  gen_cc ex_json ex_repr (ex_world (Text (lit "[]"))) =
    (emit (ex_world (Text (lit "[]"))) (fmt_code 0 NL), Ok tt) /\
  written (ex_world (Text (lit "[]")))
          (fst (gen_cc ex_json ex_repr (ex_world (Text (lit "[]"))))) <>
  fmt_code 0 [] ++ NL.
Proof.
  split; [reflexivity|]; split; [reflexivity|].
  vm_compute; discriminate.
Defined.

Lemma gen_cc_empty_dataset_witness :
  fs (ex_world (Text (lit "[]"))) (ISO3166_DATA (ex_world (Text (lit "[]")))) =
    Text (lit "[]") /\
  ex_json (lit "[]") = Ok (PList []) /\
  gen_cc ex_json ex_repr (ex_world (Text (lit "[]"))) =
  (World ex_dir (fs (ex_world (Text (lit "[]"))))
     ([] ++
      (NL ++ lit "pub static COUNTRY_CODES: [(&'static str, &'static str); 0] = [" ++
       NL ++ lit "];" ++ NL) ++ NL),
   Ok tt).
Proof.
  repeat (split; [reflexivity|]).
  apply (gen_cc_empty_dataset ex_json ex_repr (ex_world (Text (lit "[]")))
           (lit "[]")); reflexivity.
Defined.

(** A name with two double quotes in it. *)
Lemma gen_cc_no_escaping_witness :
  fs (ex_world (Text ex_text_quote))
     (ISO3166_DATA (ex_world (Text ex_text_quote))) = Text ex_text_quote /\
  ex_json ex_text_quote = Ok (PList ex_recs_quote) /\
  forallb valid_record ex_recs_quote = true /\
  forallb (printable_record ex_repr) ex_recs_quote = true /\
  ex_name_quote = lit "Ivory " ++ DQ ++ lit "Coast" ++ DQ /\
  exists pre post,
    written (ex_world (Text ex_text_quote))
            (fst (gen_cc ex_json ex_repr (ex_world (Text ex_text_quote)))) =
    pre ++ lit "(" ++ DQ ++ lit "CI" ++ DQ ++ lit ", " ++
    DQ ++ lit "Ivory " ++ DQ ++ (lit "Coast" ++ DQ) ++ DQ ++ lit "), " ++ post.
Proof.
  repeat (split; [reflexivity|]).
  apply (proj2 (gen_cc_no_escaping ex_json ex_repr
                  (ex_world (Text ex_text_quote)) ex_text_quote ex_recs_quote
                  (PDict [(lit "alpha-2", PStr (lit "CI"));
                          (lit "name", PStr ex_name_quote)])
                  (lit "CI") ex_name_quote
                  eq_refl eq_refl eq_refl eq_refl (or_introl eq_refl)
                  eq_refl eq_refl)
               (lit "Ivory ") (lit "Coast" ++ DQ)).
  reflexivity.
Defined.

(** Two worlds that differ in where the script lives and in what standard
    output already holds. *)
Lemma gen_cc_deterministic_witness :
  fs (ex_world (Text ex_text)) (ISO3166_DATA (ex_world (Text ex_text))) =
  fs (World (lit "/tmp/") (fun _ => Text ex_text) (lit "earlier output"))
     (ISO3166_DATA
        (World (lit "/tmp/") (fun _ => Text ex_text) (lit "earlier output"))) /\
  written (ex_world (Text ex_text))
          (fst (gen_cc ex_json ex_repr (ex_world (Text ex_text)))) =
  written (World (lit "/tmp/") (fun _ => Text ex_text) (lit "earlier output"))
          (fst (gen_cc ex_json ex_repr
                  (World (lit "/tmp/") (fun _ => Text ex_text)
                         (lit "earlier output")))).
Proof.
  split; [reflexivity|].
  apply (gen_cc_deterministic ex_json ex_repr (ex_world (Text ex_text))
           (World (lit "/tmp/") (fun _ => Text ex_text) (lit "earlier output"))).
  reflexivity.
Defined.

Lemma gen_cc_length_matches_body_witness :
  gen_cc ex_json ex_repr (ex_world (Text ex_text)) =
    (fst (gen_cc ex_json ex_repr (ex_world (Text ex_text))), Ok tt) /\
  exists (t : pystr) (data : pyval) (elems : list pyval)
         (pairs items : list item) (count : pystr),
    fs (ex_world (Text ex_text)) (ISO3166_DATA (ex_world (Text ex_text))) =
      Text t /\
    ex_json t = Ok data /\
    py_iter data = Ok elems /\
    Forall2 (fun elem it => getitem elem (lit "alpha-2") = Ok (fst it) /\
                            getitem elem (lit "name") = Ok (snd it))
            elems pairs /\
    Permutation items pairs /\
    List.length items = List.length elems /\
    count = lit (NilZero.string_of_int (Z.to_int (Z.of_nat (List.length items)))) /\
    int_of_str count = Some (Z.of_nat (List.length items)) /\
    written (ex_world (Text ex_text))
            (fst (gen_cc ex_json ex_repr (ex_world (Text ex_text)))) =
      NL ++
      lit "pub static COUNTRY_CODES: [(&'static str, &'static str); " ++
      count ++ lit "] = [" ++
      (flat_map (fun it =>
                   NL ++ lit "    " ++
                   lit "(" ++ DQ ++ py_str ex_repr (fst it) ++ DQ ++ lit ", " ++
                   DQ ++ py_str ex_repr (snd it) ++ DQ ++ lit "), ") items ++ NL) ++
      lit "];" ++ NL ++ NL.
Proof.
  split; [reflexivity|].
  apply (gen_cc_length_matches_body ex_json ex_repr (ex_world (Text ex_text))).
  reflexivity.
Defined.

(** C10, as stated, fails: both records have both keys, the second has the
    number 1 as its code, and [sorted] raises [TypeError] when it compares
    that number with the string of the first; nothing is written.  So does
    a record whose name is a string that standard output cannot encode. *)
Lemma gen_cc_rejects_number_code :
  ex_json ex_text_number = Ok (PList ex_recs_number) /\
  forallb has_keys ex_recs_number = true /\
  gen_cc ex_json ex_repr (ex_world (Text ex_text_number)) =
    (ex_world (Text ex_text_number), Err TypeError) /\
  script ex_json ex_repr (ex_world (Text ex_text_number)) =
    (ex_world (Text ex_text_number), 1%Z) /\
  ex_json_odd ex_text_surrogate = Ok (PList ex_recs_surrogate) /\
  forallb has_keys ex_recs_surrogate = true /\
  gen_cc ex_json_odd ex_repr (ex_world (Text ex_text_surrogate)) =
    (ex_world (Text ex_text_surrogate), Err UnicodeEncodeError).
Proof. repeat split. Defined.

(** A single record with null as code and a number as name; two records
    with codes that are not two capital letters and names that are not
    strings. *)
Lemma gen_cc_no_validation_witness :
  (forallb has_keys ex_recs_single = true /\
   forallb (printable_record ex_repr) ex_recs_single = true /\
   List.length ex_recs_single <= 1 /\
   exists items,
     Permutation items (map pair_of ex_recs_single) /\
     snd (gen_cc ex_json ex_repr (ex_world (Text ex_text_single))) = Ok tt) /\
  (forallb has_keys ex_recs_loose = true /\
   forallb (printable_record ex_repr) ex_recs_loose = true /\
   forallb (fun r => is_str (field (lit "alpha-2") r)) ex_recs_loose = true /\
   exists items,
     Permutation items (map pair_of ex_recs_loose) /\
     snd (gen_cc ex_json ex_repr (ex_world (Text ex_text_loose))) = Ok tt).
Proof.
  split.
  - destruct (gen_cc_no_validation ex_json ex_repr
                (ex_world (Text ex_text_single)) ex_text_single ex_recs_single
                eq_refl eq_refl eq_refl eq_refl (or_introl (le_n 1)))
      as (items & Hp & H).
    split; [reflexivity|]; split; [reflexivity|]; split; [apply le_n|].
    exists items; split; [exact Hp | rewrite H; reflexivity].
  - destruct (gen_cc_no_validation ex_json ex_repr
                (ex_world (Text ex_text_loose)) ex_text_loose ex_recs_loose
                eq_refl eq_refl eq_refl eq_refl (or_intror (or_introl eq_refl)))
      as (items & Hp & H).
    split; [reflexivity|]; split; [reflexivity|]; split; [reflexivity|].
    exists items; split; [exact Hp | rewrite H; reflexivity].
Defined.

(** ** The outputs of the examples, character by character *)

Example output_of_spec_example :
  written (ex_world (Text ex_text))
          (fst (gen_cc ex_json ex_repr (ex_world (Text ex_text)))) =
  NL ++ lit "pub static COUNTRY_CODES: [(&'static str, &'static str); 2] = [" ++
  NL ++ lit "    (" ++ quoted "AD" ++ lit ", " ++ quoted "Andorra" ++ lit "), " ++
  NL ++ lit "    (" ++ quoted "US" ++ lit ", " ++ quoted "United States" ++ lit "), " ++
  NL ++ lit "];" ++ NL ++ NL.
Proof. reflexivity. Qed.

Example output_of_quoted_name :
  written (ex_world (Text ex_text_quote))
          (fst (gen_cc ex_json ex_repr (ex_world (Text ex_text_quote)))) =
  NL ++ lit "pub static COUNTRY_CODES: [(&'static str, &'static str); 1] = [" ++
  NL ++ lit "    (" ++ quoted "CI" ++ lit ", " ++
  DQ ++ lit "Ivory " ++ DQ ++ lit "Coast" ++ DQ ++ DQ ++ lit "), " ++
  NL ++ lit "];" ++ NL ++ NL.
Proof. reflexivity. Qed.

(** Nothing is escaped: the name of the one item of this dataset is printed
    as it is, with the quotes, the parentheses and the comma it holds. *)
Example output_of_name_closing_its_entry :
  written (ex_world (Text ex_text_inject))
          (fst (gen_cc ex_json ex_repr (ex_world (Text ex_text_inject)))) =
  NL ++ lit "pub static COUNTRY_CODES: [(&'static str, &'static str); 1] = [" ++
  NL ++ lit "    (" ++ quoted "A" ++ lit ", " ++ quoted "x" ++ lit "), " ++
  lit "(" ++ quoted "B" ++ lit ", " ++ quoted "y" ++ lit "), " ++
  NL ++ lit "];" ++ NL ++ NL.
Proof. reflexivity. Qed.

Example output_of_single_null :
  written (ex_world (Text ex_text_single))
          (fst (gen_cc ex_json ex_repr (ex_world (Text ex_text_single)))) =
  NL ++ lit "pub static COUNTRY_CODES: [(&'static str, &'static str); 1] = [" ++
  NL ++ lit "    (" ++ quoted "None" ++ lit ", " ++ quoted "7" ++ lit "), " ++
  NL ++ lit "];" ++ NL ++ NL.
Proof. reflexivity. Qed.

Example output_of_loose_values :
  written (ex_world (Text ex_text_loose))
          (fst (gen_cc ex_json ex_repr (ex_world (Text ex_text_loose)))) =
  NL ++ lit "pub static COUNTRY_CODES: [(&'static str, &'static str); 2] = [" ++
  NL ++ lit "    (" ++ DQ ++ DQ ++ lit ", " ++ quoted "True" ++ lit "), " ++
  NL ++ lit "    (" ++ quoted "usa" ++ lit ", " ++ quoted "None" ++ lit "), " ++
  NL ++ lit "];" ++ NL ++ NL.
Proof. reflexivity. Qed.

(** Two records with null as code cannot be sorted either. *)
Example two_null_codes_raise :
  sorted [(PNone, PStr (lit "a")); (PNone, PStr (lit "b"))] fst = Err TypeError.
Proof. reflexivity. Qed.

(** * Further properties of the generator *)

(** ** Edge cases of the generator *)

Section Edges.

Variable json_loads : pystr -> result pyval.
Variable py_repr : pyval -> pystr.

Abbreviation fmt_entry := (fmt_entry py_repr).
Abbreviation loop_body := (loop_body py_repr).
Abbreviation gen_cc := (gen_cc json_loads py_repr).
Abbreviation script := (script json_loads py_repr).
Abbreviation line := (line py_repr).
Abbreviation rendering := (rendering py_repr).
Abbreviation sorted_items := (sorted_items json_loads).
Abbreviation printable_record := (printable_record py_repr).

Lemma mapM_project_first_bad (pre post : list pyval) (bad : pyval) (e : exn) :
  forallb has_keys pre = true -> project bad = Err e ->
  mapM project (pre ++ bad :: post) = Err e.
Proof.
  intros Hpre Hbad; induction pre as [|r pre IH]; cbn [app mapM].
  - rewrite Hbad; reflexivity.
  - cbn [forallb] in Hpre; apply andb_true_iff in Hpre; destruct Hpre as [Hr Hpre].
    rewrite (project_has_keys r Hr), (IH Hpre); reflexivity.
Qed.

(** X1. A top-level JSON value that is not a list is iterated all the same:
    an empty object and an empty string have nothing to iterate, and the
    table of no entries is printed; every other value raises [TypeError]
    with nothing written (a number, a boolean or null cannot be iterated;
    the keys of an object and the characters of a string cannot be indexed
    by a key). *)
Theorem gen_cc_top_level_not_a_list (w : world) (t : pystr) (data : pyval) :
  fs w (ISO3166_DATA w) = Text t ->
  json_loads t = Ok data ->
  (forall l, data <> PList l) ->
  (data = PDict [] \/ data = PStr [] ->
   gen_cc w = (emit w (fmt_code 0 NL), Ok tt)) /\
  (data <> PDict [] -> data <> PStr [] -> gen_cc w = (w, Err TypeError)).
Proof.
  intros Hf Ht Hl; rewrite gen_cc_eq, Hf; unfold sorted_items; rewrite Ht.
  split.
  - intros [-> | ->]; reflexivity.
  - intros Hd Hs.
    destruct data as [| | | |s|l|d]; try reflexivity.
    + destruct s as [|c s]; [congruence | reflexivity].
    + destruct (Hl l eq_refl).
    + destruct d as [|[k v] d]; [congruence | reflexivity].
Qed.

(** X2. The records are projected in file order and all of them before any
    sorting: the first element of the list that is not an object with both
    keys decides the exception, whatever follows it and whatever the codes
    before it are.  An object without alpha-2 raises [KeyError] for alpha-2
    (also when name is missing too), an object with alpha-2 but without name
    raises [KeyError] for name, an element that is not an object raises
    [TypeError]; nothing is written. *)
Theorem gen_cc_first_bad_record (w : world) (t : pystr)
    (pre post : list pyval) (bad : pyval) :
  fs w (ISO3166_DATA w) = Text t ->
  json_loads t = Ok (PList (pre ++ bad :: post)) ->
  forallb has_keys pre = true ->
  has_keys bad = false ->
  gen_cc w =
  (w, Err (match bad with
           | PDict d =>
               match lookup (lit "alpha-2") d with
               | None => KeyError (lit "alpha-2")
               | Some _ => KeyError (lit "name")
               end
           | _ => TypeError
           end)).
Proof.
  intros Hf Ht Hpre Hbad; rewrite gen_cc_eq, Hf; unfold sorted_items; rewrite Ht.
  cbn [rbind py_iter].
  assert (Hp : project bad =
               Err (match bad with
                    | PDict d =>
                        match lookup (lit "alpha-2") d with
                        | None => KeyError (lit "alpha-2")
                        | Some _ => KeyError (lit "name")
                        end
                    | _ => TypeError
                    end)).
  { destruct bad as [| | | | | |d]; try reflexivity.
    unfold has_keys in Hbad; unfold project, getitem.
    destruct (lookup (lit "alpha-2") d); [|reflexivity].
    destruct (lookup (lit "name") d); [discriminate | reflexivity]. }
  rewrite (mapM_project_first_bad pre post bad _ Hpre Hp); reflexivity.
Qed.

(** X3. With two records or more, all with both keys, a code that is null
    or an object makes [sorted] raise [TypeError]: such a value cannot stand
    on either side of [<], and every element of a list of two or more is
    compared.  Nothing is written. *)
Theorem gen_cc_unorderable_code (w : world) (t : pystr) (recs : list pyval) :
  fs w (ISO3166_DATA w) = Text t ->
  json_loads t = Ok (PList recs) ->
  forallb has_keys recs = true ->
  2 <= List.length recs ->
  existsb (fun r => unorderable (field (lit "alpha-2") r)) recs = true ->
  gen_cc w = (w, Err TypeError).
Proof.
  intros Hf Ht Hk Hlen Hex.
  rewrite gen_cc_eq, Hf, (sorted_items_keys json_loads t recs Ht Hk).
  rewrite sorted_unorderable; [reflexivity | rewrite length_map; exact Hlen |].
  apply existsb_exists in Hex; destruct Hex as (r & Hr & Hu).
  apply Exists_exists; exists (pair_of r); split; [apply in_map, Hr | exact Hu].
Qed.

(** X4. When no two records share a code, the order of the records in the
    file does not matter: two valid datasets with the same pairs in any
    order give the same output. *)
Theorem gen_cc_input_order_irrelevant (w1 w2 : world) (t1 t2 : pystr)
    (recs1 recs2 : list pyval) :
  fs w1 (ISO3166_DATA w1) = Text t1 ->
  json_loads t1 = Ok (PList recs1) ->
  forallb valid_record recs1 = true ->
  fs w2 (ISO3166_DATA w2) = Text t2 ->
  json_loads t2 = Ok (PList recs2) ->
  forallb valid_record recs2 = true ->
  Permutation (map pair_of recs1) (map pair_of recs2) ->
  NoDup (map code_of (map pair_of recs1)) ->
  written w1 (fst (gen_cc w1)) = written w2 (fst (gen_cc w2)).
Proof.
  intros Hf1 Ht1 Hv1 Hf2 Ht2 Hv2 Hp Hn.
  rewrite !gen_cc_eq, Hf1, Hf2.
  rewrite (sorted_items_valid json_loads py_repr t1 recs1 Ht1 Hv1).
  rewrite (sorted_items_valid json_loads py_repr t2 recs2 Ht2 Hv2).
  rewrite (psort_perm_unique item code_of _ _ Hp Hn).
  destruct (encodable (rendering (psort code_of (map pair_of recs2))));
    cbn [fst]; rewrite ?written_emit, ?written_same; reflexivity.
Qed.

(** X5. Records that stand in the file in ascending order of their codes
    (equal codes allowed), with texts that standard output can encode, are
    printed in the order of the file. *)
Theorem gen_cc_sorted_input_kept (w : world) (t : pystr) (recs : list pyval) :
  fs w (ISO3166_DATA w) = Text t ->
  json_loads t = Ok (PList recs) ->
  forallb valid_record recs = true ->
  forallb printable_record recs = true ->
  StronglySorted (fun a b => str_leb (code_of a) (code_of b) = true)
                 (map pair_of recs) ->
  written w (fst (gen_cc w)) =
    fmt_code (List.length recs)
             (flat_map (fun r => NL ++ lit "    " ++ fmt_entry (pair_of r)) recs ++ NL)
    ++ NL.
Proof.
  intros Hf Ht Hv Hp Hs.
  rewrite (gen_cc_valid json_loads py_repr w t recs Hf Ht Hv Hp).
  cbn [fst]; rewrite written_emit, (psort_sorted_id item code_of _ Hs).
  unfold rendering; rewrite length_map, flat_map_map; reflexivity.
Qed.

(** X6. Of two records of a valid dataset whose texts standard output can
    encode, the one with the smaller code is printed first: its entry stands
    in the output before the entry of the other. *)
Theorem gen_cc_smaller_code_first (w : world) (t : pystr) (recs : list pyval)
    (r1 r2 : pyval) :
  fs w (ISO3166_DATA w) = Text t ->
  json_loads t = Ok (PList recs) ->
  forallb valid_record recs = true ->
  forallb printable_record recs = true ->
  In r1 recs -> In r2 recs ->
  str_ltb (code_of (pair_of r1)) (code_of (pair_of r2)) = true ->
  exists pre mid post,
    written w (fst (gen_cc w)) =
    pre ++ fmt_entry (pair_of r1) ++ mid ++ fmt_entry (pair_of r2) ++ post.
Proof.
  intros Hf Ht Hv Hp H1 H2 Hlt.
  rewrite (gen_cc_valid json_loads py_repr w t recs Hf Ht Hv Hp).
  cbn [fst]; rewrite written_emit.
  set (items := psort code_of (map pair_of recs)).
  assert (Hin : forall r, In r recs -> In (pair_of r) items).
  { intros r Hr.
    apply (Permutation_in _ (Permutation_sym (psort_perm _ code_of _))).
    apply in_map, Hr. }
  destruct (sorted_before item code_of items (pair_of r1) (pair_of r2)
              (psort_sorted _ _ _) (Hin r1 H1) (Hin r2 H2) Hlt)
    as (l1 & l2 & l3 & E).
  exists (NL ++
          lit "pub static COUNTRY_CODES: [(&'static str, &'static str); " ++
          str_of_int (Z.of_nat (List.length items)) ++ lit "] = [" ++
          flat_map line l1 ++ NL ++ lit "    "),
         (flat_map line l2 ++ NL ++ lit "    "),
         (flat_map line l3 ++ NL ++ lit "];" ++ NL ++ NL).
  unfold rendering, fmt_code; rewrite E.
  rewrite flat_map_app; cbn [flat_map]; rewrite flat_map_app; cbn [flat_map].
  unfold line; rewrite <- !app_assoc; reflexivity.
Qed.

(** X7. The loop over [range(len(items))] reads [items[i]] within bounds at
    every turn, so it never raises: from any starting text it returns that
    text followed by one line per item, in list order.  The same turn at an
    index past the end of the list would raise [IndexError]. *)
Theorem loop_index_in_range (items : list item) (start : pystr) :
  foldM (loop_body items) (seq 0 (List.length items)) start =
    Ok (start ++ flat_map (fun it => NL ++ lit "    " ++ fmt_entry it) items) /\
  (forall i body, List.length items <= i ->
                  loop_body items body i = Err IndexError).
Proof.
  split; [exact (loop_from py_repr [] items start)|].
  intros i body Hi; unfold loop_body, list_getitem.
  apply nth_error_None in Hi; rewrite Hi; reflexivity.
Qed.

(** X8. The exit status tells whether anything was written: the process
    ends with status 0 and a text of at least one character on standard
    output, or with status 1, nothing written and the world unchanged. *)
Theorem script_status_tells_output (w : world) :
  (snd (script w) = 0%Z /\ written w (fst (script w)) <> []) \/
  (snd (script w) = 1%Z /\ written w (fst (script w)) = [] /\
   fst (script w) = w).
Proof.
  unfold script, main.
  destruct (gen_cc_cases json_loads py_repr w) as [[e He]|[items Hi]].
  - right; rewrite He; cbn [fst snd]; rewrite written_same; auto.
  - left; rewrite Hi; cbn [fst snd]; rewrite written_emit.
    split; [reflexivity | discriminate].
Qed.

End Edges.

(** ** The further properties at example inputs *)

(** The empty object prints the empty table; null raises. *)
Lemma gen_cc_top_level_not_a_list_witness :
  ex_json_more (lit "{}") = Ok (PDict []) /\
  ex_json_more (lit "null") = Ok PNone /\
  gen_cc ex_json_more ex_repr (ex_world (Text (lit "{}"))) =
    (emit (ex_world (Text (lit "{}"))) (fmt_code 0 NL), Ok tt) /\
  gen_cc ex_json_more ex_repr (ex_world (Text (lit "null"))) =
    (ex_world (Text (lit "null")), Err TypeError).
Proof.
  split; [reflexivity|]; split; [reflexivity|]; split.
  - apply (proj1 (gen_cc_top_level_not_a_list ex_json_more ex_repr
                    (ex_world (Text (lit "{}"))) (lit "{}") (PDict [])
                    eq_refl eq_refl ltac:(discriminate))).
    left; reflexivity.
  - apply (proj2 (gen_cc_top_level_not_a_list ex_json_more ex_repr
                    (ex_world (Text (lit "null"))) (lit "null") PNone
                    eq_refl eq_refl ltac:(discriminate)));
      discriminate.
Defined.

Lemma gen_cc_first_bad_record_witness :
  ex_json_more ex_text_second_bad =
    Ok (PList ([ex_record "US" "United States"] ++ ex_bad_record :: [PInt 5])) /\
  forallb has_keys [ex_record "US" "United States"] = true /\
  has_keys ex_bad_record = false /\
  gen_cc ex_json_more ex_repr (ex_world (Text ex_text_second_bad)) =
    (ex_world (Text ex_text_second_bad), Err (KeyError (lit "alpha-2"))).
Proof.
  repeat (split; [reflexivity|]).
  apply (gen_cc_first_bad_record ex_json_more ex_repr
           (ex_world (Text ex_text_second_bad)) ex_text_second_bad
           [ex_record "US" "United States"] [PInt 5] ex_bad_record);
    reflexivity.
Defined.

Lemma gen_cc_unorderable_code_witness :
  ex_json_more ex_text_nulls = Ok (PList ex_recs_nulls) /\
  forallb has_keys ex_recs_nulls = true /\
  2 <= List.length ex_recs_nulls /\
  existsb (fun r => unorderable (field (lit "alpha-2") r)) ex_recs_nulls = true /\
  gen_cc ex_json_more ex_repr (ex_world (Text ex_text_nulls)) =
    (ex_world (Text ex_text_nulls), Err TypeError).
Proof.
  split; [reflexivity|]; split; [reflexivity|]; split; [apply le_n|].
  split; [reflexivity|].
  apply (gen_cc_unorderable_code ex_json_more ex_repr
           (ex_world (Text ex_text_nulls)) ex_text_nulls ex_recs_nulls);
    try reflexivity; apply le_n.
Defined.

Lemma gen_cc_input_order_irrelevant_witness :
  forallb valid_record ex_recs = true /\
  forallb valid_record ex_recs_swapped = true /\
  Permutation (map pair_of ex_recs) (map pair_of ex_recs_swapped) /\
  NoDup (map code_of (map pair_of ex_recs)) /\
  written (ex_world (Text ex_text))
          (fst (gen_cc ex_json_more ex_repr (ex_world (Text ex_text)))) =
  written (ex_world (Text ex_text_swapped))
          (fst (gen_cc ex_json_more ex_repr (ex_world (Text ex_text_swapped)))).
Proof.
  assert (Hp : Permutation (map pair_of ex_recs) (map pair_of ex_recs_swapped))
    by apply perm_swap.
  assert (Hn : NoDup (map code_of (map pair_of ex_recs))).
  { constructor; [intros [H|[]]; discriminate|].
    constructor; [intros []|constructor]. }
  repeat (split; [reflexivity || assumption|]).
  apply (gen_cc_input_order_irrelevant ex_json_more ex_repr
           (ex_world (Text ex_text)) (ex_world (Text ex_text_swapped))
           ex_text ex_text_swapped ex_recs ex_recs_swapped);
    try reflexivity; assumption.
Defined.

Lemma gen_cc_sorted_input_kept_witness :
  forallb valid_record ex_recs_swapped = true /\
  forallb (printable_record ex_repr) ex_recs_swapped = true /\
  StronglySorted (fun a b => str_leb (code_of a) (code_of b) = true)
                 (map pair_of ex_recs_swapped) /\
  written (ex_world (Text ex_text_swapped))
          (fst (gen_cc ex_json_more ex_repr (ex_world (Text ex_text_swapped)))) =
    fmt_code (List.length ex_recs_swapped)
             (flat_map (fun r => NL ++ lit "    " ++ fmt_entry ex_repr (pair_of r))
                       ex_recs_swapped ++ NL)
    ++ NL.
Proof.
  assert (Hs : StronglySorted
                 (fun a b => str_leb (code_of a) (code_of b) = true)
                 (map pair_of ex_recs_swapped)).
  { repeat constructor. }
  split; [reflexivity|]; split; [reflexivity|]; split; [exact Hs|].
  apply (gen_cc_sorted_input_kept ex_json_more ex_repr
           (ex_world (Text ex_text_swapped)) ex_text_swapped ex_recs_swapped);
    try reflexivity; exact Hs.
Defined.

(** [AD] before [US], though the file has them the other way round. *)
Lemma gen_cc_smaller_code_first_witness :
  forallb valid_record ex_recs = true /\
  forallb (printable_record ex_repr) ex_recs = true /\
  In (ex_record "AD" "Andorra") ex_recs /\
  In (ex_record "US" "United States") ex_recs /\
  str_ltb (lit "AD") (lit "US") = true /\
  exists pre mid post,
    written (ex_world (Text ex_text))
            (fst (gen_cc ex_json_more ex_repr (ex_world (Text ex_text)))) =
    pre ++ fmt_entry ex_repr (PStr (lit "AD"), PStr (lit "Andorra")) ++
    mid ++ fmt_entry ex_repr (PStr (lit "US"), PStr (lit "United States")) ++
    post.
Proof.
  split; [reflexivity|].
  split; [reflexivity|].
  split; [right; left; reflexivity|].
  split; [left; reflexivity|].
  split; [reflexivity|].
  apply (gen_cc_smaller_code_first ex_json_more ex_repr
           (ex_world (Text ex_text)) ex_text ex_recs
           (ex_record "AD" "Andorra") (ex_record "US" "United States"));
    try reflexivity; [right; left; reflexivity | left; reflexivity].
Defined.

Lemma loop_index_in_range_witness :
  List.length [(PStr (lit "AD"), PStr (lit "Andorra"))] <= 1 /\
  loop_body ex_repr [(PStr (lit "AD"), PStr (lit "Andorra"))] [] 1 =
    Err IndexError.
Proof.
  split; [apply le_n|].
  apply (proj2 (loop_index_in_range ex_repr
                  [(PStr (lit "AD"), PStr (lit "Andorra"))] [])).
  apply le_n.
Defined.

(** ** Comparisons of lists that hold NaN *)

(** Inside a list the one NaN object of a parsed text equals itself, so the
    comparison moves on to the next pair of elements; on its own NaN is not
    smaller than NaN and nothing raises. *)
Example lists_with_nan :
  py_lt (PList [PFloat S754_nan; PNone]) (PList [PFloat S754_nan; PDict []]) =
    Err TypeError /\
  py_lt (PList [PFloat S754_nan; PInt 1]) (PList [PFloat S754_nan; PInt 2]) =
    Ok true /\
  py_lt (PFloat S754_nan) (PFloat S754_nan) = Ok false /\
  orderable [PList [PFloat S754_nan; PNone]; PList [PFloat S754_nan; PDict []]] =
    false.
Proof. repeat split. Qed.
